(** * shellai: response-to-command extraction, escaping and pane injection

    A shallow embedding of the two command-line scripts of the repository,
    [src/shellai.py] (module [Shellai]) and the older single-provider
    [src/shellAI.py] (module [Legacy]), together with the properties of the
    extraction / sanitising / injection pipeline.

    Python text is a sequence of Unicode code points: a [str] here is a list
    of code points ([N]).  Side effects (printing, sub-processes, network
    calls, sleeping, file appends) are recorded in a trace of [event]s, and
    Python exceptions are explicit results. *)

From Stdlib Require Import ZArith NArith PrimFloat List String Ascii Lia DecimalString.
From stdpp Require Import base option list gmap.
Import ListNotations.

Local Open Scope N_scope.

(** ** Text *)

Definition str : Type := list N.

Definition hex_digit (c : ascii) : option N :=
  let n := N_of_ascii c in
  if (48 <=? n) && (n <=? 57) then Some (n - 48)
  else if (97 <=? n) && (n <=? 102) then Some (n - 87)
  else if (65 <=? n) && (n <=? 70) then Some (n - 55)
  else None.

(** Reads a literal the way Python reads the body of a string literal:
    [\n], [\t], [\r], [\\] and [\xHH] are escapes (a double quote is written
    [\x22], a backtick may be written [\x60]); every other character stands
    for itself. *)
Fixpoint unescape (l : list ascii) : str :=
  match l with
  | [] => []
  | c :: t =>
      if N_of_ascii c =? 92 then
        match t with
        | [] => [92]
        | d :: t' =>
            if N_of_ascii d =? 110 then 10 :: unescape t'
            else if N_of_ascii d =? 116 then 9 :: unescape t'
            else if N_of_ascii d =? 114 then 13 :: unescape t'
            else if N_of_ascii d =? 92 then 92 :: unescape t'
            else if N_of_ascii d =? 120 then
              match t' with
              | h1 :: h2 :: t'' =>
                  match hex_digit h1, hex_digit h2 with
                  | Some a, Some b => (16 * a + b) :: unescape t''
                  | _, _ => 92 :: 120 :: unescape t'
                  end
              | _ => 92 :: 120 :: unescape t'
              end
            else 92 :: N_of_ascii d :: unescape t'
        end
      else N_of_ascii c :: unescape t
  end.

Definition py (s : string) : str := unescape (list_ascii_of_string s).
Arguments py s%_string.

(** [str.isspace] on one character (CPython's [_PyUnicode_IsWhitespace]). *)
Definition isspace (c : N) : bool :=
  ((9 <=? c) && (c <=? 13)) || ((28 <=? c) && (c <=? 32))
  || (c =? 133) || (c =? 160) || (c =? 5760)
  || ((8192 <=? c) && (c <=? 8202))
  || (c =? 8232) || (c =? 8233) || (c =? 8239) || (c =? 8287) || (c =? 12288).

(** Line boundaries of [str.splitlines] (CPython's [_PyUnicode_IsLinebreak]). *)
Definition is_linebreak (c : N) : bool :=
  ((10 <=? c) && (c <=? 13)) || ((28 <=? c) && (c <=? 30))
  || (c =? 133) || (c =? 8232) || (c =? 8233).

Fixpoint lstrip (s : str) : str :=
  match s with
  | [] => []
  | c :: t => if isspace c then lstrip t else s
  end.

Definition rstrip (s : str) : str := rev (lstrip (rev s)).

(** [s.strip()] *)
Definition strip (s : str) : str := rstrip (lstrip s).

(** [s.split(sep)] for a one-character separator: never the empty list. *)
Fixpoint split_on (sep : N) (s : str) : list str :=
  match s with
  | [] => [[]]
  | c :: t =>
      if c =? sep then [] :: split_on sep t
      else match split_on sep t with
           | h :: r => (c :: h) :: r
           | [] => [[c]]
           end
  end.

(** [s.splitlines()]: [cur] is the current line, reversed.  A carriage
    return followed by a line feed is one boundary; no empty last line is
    produced after a final boundary, and the empty text has no line. *)
Fixpoint splitlines_from (cur : str) (s : str) : list str :=
  match s with
  | [] => match cur with [] => [] | _ => [rev cur] end
  | c :: t =>
      if is_linebreak c then
        if c =? 13 then
          match t with
          | d :: t' => if d =? 10 then rev cur :: splitlines_from [] t'
                       else rev cur :: splitlines_from [] t
          | [] => rev cur :: splitlines_from [] t
          end
        else rev cur :: splitlines_from [] t
      else splitlines_from (c :: cur) t
  end.

Definition splitlines (s : str) : list str := splitlines_from [] s.

(** [sep.join(parts)] *)
Fixpoint join (sep : str) (parts : list str) : str :=
  match parts with
  | [] => []
  | [p] => p
  | p :: rest => p ++ sep ++ join sep rest
  end.

(** [s.ljust(width)] *)
Definition ljust (width : nat) (s : str) : str :=
  s ++ repeat 32 (width - length s).

(** [str(n)] for an integer. *)
Definition str_of_Z (z : Z) : str :=
  List.map N_of_ascii (list_ascii_of_string (NilEmpty.string_of_int (Z.to_int z))).

Fixpoint strip_prefix (p s : str) : option str :=
  match p with
  | [] => Some s
  | a :: p' =>
      match s with
      | [] => None
      | b :: s' => if a =? b then strip_prefix p' s' else None
      end
  end.

Definition startswith (p s : str) : bool :=
  match strip_prefix p s with
  | Some _ => true
  | None => false
  end.

(** ** Exceptions and results *)

Inductive exn : Type :=
| SystemExit            (* quit(): SystemExit(None) *)
| IndexError
| KeyError
| TypeError
| ValueError
| OverflowError
| OSError
| CalledProcessError
| ModuleNotFoundError
| ReError               (* re.error *)
| PlainException        (* raise Exception *)
| ExternalError (name : str).   (* raised inside a library call *)

Inductive result (A : Type) : Type :=
| Ok (a : A)
| Raise (e : exn).
Arguments Ok {A} a.
Arguments Raise {A} e.

(** [l[-1]] *)
Definition index_last {A} (l : list A) : result A :=
  match last l with
  | Some x => Ok x
  | None => Raise IndexError
  end.

(** [l[0]] *)
Definition index_first {A} (l : list A) : result A :=
  match l with
  | x :: _ => Ok x
  | [] => Raise IndexError
  end.

(** The exit status of the interpreter: 0 after a normal end and after
    [SystemExit(None)], 1 after any other uncaught exception. *)
Definition exit_status {A} (r : result A) : Z :=
  match r with
  | Ok _ => 0%Z
  | Raise SystemExit => 0%Z
  | Raise _ => 1%Z
  end.

(** ** JSON values, as [response.json()] returns them *)

#[warnings="-register-all"]
Inductive json : Type :=
| JNull
| JBool (b : bool)
| JNum (literal : str)
| JStr (s : str)
| JList (items : list json)
| JDict (items : list (str * json)).

Fixpoint assoc {V} (k : str) (items : list (str * V)) : option V :=
  match items with
  | [] => None
  | (k', v) :: rest => if bool_decide (k = k') then Some v else assoc k rest
  end.

(** [v[k]] for a text key. *)
Definition getitem_key (v : json) (k : str) : result json :=
  match v with
  | JDict d => match assoc k d with Some x => Ok x | None => Raise KeyError end
  | _ => Raise TypeError
  end.

(** [v[0]] *)
Definition getitem_0 (v : json) : result json :=
  match v with
  | JDict _ => Raise KeyError
  | JList l => index_first l
  | JStr s => match s with c :: _ => Ok (JStr [c]) | [] => Raise IndexError end
  | _ => Raise TypeError
  end.

(** A value used where Python needs text ([re.findall], [file.write]). *)
Definition as_str (v : json) : result str :=
  match v with
  | JStr s => Ok s
  | _ => Raise TypeError
  end.

(** ** Effects *)

Record http_response : Type := {
  status_code : Z;
  text : str;
  json_body : result json          (* response.json() *)
}.

Inductive content_block : Type :=
| TextBlock (block_text : str)
| OtherBlock.

Record anthropic_message : Type := {
  message_repr : str;
  content : list content_block
}.

Inductive event : Type :=
| Print (s : str)
| PrintValue (v : json)
| Run (cmd : str)                     (* a shell command handed to subprocess *)
| HttpPost (url bearer : str) (model : option str) (system user : str)
| SdkCall (vendor : str) (model : option str) (system user : str)
| Sleep (seconds : float)
| Append (path content : str).

Definition is_network (e : event) : bool :=
  match e with
  | HttpPost _ _ _ _ _ | SdkCall _ _ _ _ => true
  | _ => false
  end.

(** A pane injection: a [tmux send-keys] command line. *)
Definition is_send_keys (e : event) : bool :=
  match e with
  | Run cmd => startswith (py "tmux send-keys") cmd
  | _ => false
  end.



(** A computation: the events it performed, and its value or the exception
    that ended it. *)
Definition M (A : Type) : Type := (list event * result A)%type.

Definition trace {A} (m : M A) : list event := fst m.
Definition outcome {A} (m : M A) : result A := snd m.

Definition emit (e : event) : M unit := ([e], Ok tt).
Definition raise {A} (e : exn) : M A := ([], Raise e).
Definition lift {A} (r : result A) : M A := ([], r).

#[global] Instance M_ret : MRet M := fun A a => ([], Ok a).
#[global] Instance M_bind : MBind M := fun A B k m =>
  match m with
  | (t, Ok a) => let '(t', r) := k a in (t ++ t', r)
  | (t, Raise e) => (t, Raise e)
  end.

(** [try: body / except E: handler], for the exceptions [catches] accepts. *)
Definition try_except {A} (body : M A) (catches : exn -> bool) (handler : M A) : M A :=
  match body with
  | (t, Raise e) =>
      if catches e then let '(t', r) := handler in (t ++ t', r) else (t, Raise e)
  | _ => body
  end.

(** [quit()] *)
Definition quit {A} : M A := raise SystemExit.

Definition when (b : bool) (m : M unit) : M unit := if b then m else mret tt.

(** ** The environment of one invocation *)

Record Args : Type := {
  auto : bool;
  recursive : bool;
  model : option str;
  quiet : bool;
  verbose : bool;
  debug : bool;
  target : str;
  provider_name : str;
  log : option str;
  log_commands : option str;
  file : option str;
  scrollback : Z;
  system_prompt : option str;
  delay : float                                 (* type=float *)
}.

Record LegacyFlags : Type := {
  l_auto : bool;
  l_recursive : bool;
  l_pro : bool;
  l_terse : bool;
  l_verbose : bool;
  l_debug : bool
}.

Record World : Type := {
  environ : gmap str str;                       (* os.environ *)
  argv_tail : list str;                         (* sys.argv[1:] *)
  (* parser.parse_known_args(), given the default of --target;
     the second component is the list of unrecognised arguments *)
  parse_known_args : str -> Args * list str;
  legacy_parse_known_args : LegacyFlags * list str;
  repr_args : str;                              (* str(vars(args)) *)
  repr_provider : str;                          (* str(provider) *)
  stdin_isatty : bool;
  stdin_read : str;                             (* "".join(sys.stdin) *)
  (* subprocess.check_output(cmd, shell=True).decode("utf-8") *)
  check_output : str -> result str;
  open_read : str -> result str;                (* open(path).read() *)
  open_append : str -> result unit;             (* open(path, 'a') and the write *)
  os_release_name : result str;                 (* NAME of /etc/os-release, or linux *)
  requests_post : str -> str -> option str -> str -> str -> result http_response;
  gemini_installed : bool;
  gemini_generate : option str -> str -> str -> result str;
  gemini_count_tokens : str -> result str;
  anthropic_installed : bool;
  anthropic_create : option str -> str -> str -> result anthropic_message;
  (* the two re.sub calls of main that prepare the explanation; the second
     compiles the extracted command as a regular expression *)
  explanation : str -> str -> result str;
  (* the wait of time.sleep(d) for a d of 2**62 ns or more, whose deadline
     may lie past the end of the clock *)
  long_sleep : float -> result unit
}.

(** [d * 1e9]: the duration in nanoseconds, as [time.sleep] computes it from
    a float. *)
Definition nanoseconds (d : float) : float := (d * 1000000000)%float.

(** [time.sleep(d)] for a float [d].  Not a number: [ValueError].  A
    duration from 0 to less than 2**62 ns is slept.  Of the others, one
    below -2**63 ns or above 2**63 ns does not fit the C type of the
    duration ([OverflowError]), a negative one is a [ValueError], and for
    one from 2**62 ns to 2**63 ns the operating system decides. *)
Definition sleep (w : World) (d : float) : M unit :=
  if is_nan d then raise ValueError
  else if ((0 <=? nanoseconds d) && (nanoseconds d <? 4611686018427387904))%float
  then emit (Sleep d)
  else if (nanoseconds d <? -9223372036854775808)%float then raise OverflowError
  else if (nanoseconds d <? 0)%float then raise ValueError
  else if (9223372036854775808 <? nanoseconds d)%float then raise OverflowError
  else lift (long_sleep w d);; emit (Sleep d).

#[global] Instance result_ret : MRet result := fun A a => Ok a.
#[global] Instance result_bind : MBind result := fun A B k r =>
  match r with
  | Ok a => k a
  | Raise e => Raise e
  end.

(** [print(s)] and [print(s, end="")]: the text written to standard output. *)
Definition print (s : str) : M unit := emit (Print (s ++ [10])).
Definition print_noend (s : str) : M unit := emit (Print s).
Definition print_value (v : json) : M unit :=
  match v with
  | JStr s => print s
  | _ => emit (PrintValue v)
  end.

Definition is_KeyError (e : exn) : bool :=
  match e with KeyError => true | _ => false end.

(** [os.getenv(name) != value]: an unset variable is [None], which differs
    from every text. *)
Definition getenv_differs (env : gmap str str) (name value : str) : bool :=
  negb (bool_decide (env !! name = Some value)).

(** ** The fenced-block pattern

    Both scripts scan the response with
    [re.findall(r"```(?:bash|shell)?\n(.+?)TERM", response, re.DOTALL)];
    the terminator [TERM] is a line feed in [shellai.py] and a closing fence
    in [shellAI.py].  No flag makes the match case-insensitive. *)

Definition fence : str := py "```".

(** [(?:bash|shell)?] followed by the rest [k] of the pattern.  The
    optional group is greedy: its alternatives are tried in order, the
    empty match last; when [k] fails the matcher backtracks to the next. *)
Definition opt_tag {A} (k : str -> option A) (s : str) : option A :=
  match strip_prefix (py "bash") s ≫= k with
  | Some r => Some r
  | None =>
      match strip_prefix (py "shell") s ≫= k with
      | Some r => Some r
      | None => k s
      end
  end.

(** [(.+?)] followed by the literal [term]: with DOTALL the dot accepts any
    character; the group is the shortest non-empty text after which [term]
    matches.  Returns the group and the text after [term]. *)
Fixpoint lazy_group (term : str) (s : str) : option (str * str) :=
  match s with
  | [] => None
  | c :: t =>
      match strip_prefix term t with
      | Some rest => Some ([c], rest)
      | None =>
          match lazy_group term t with
          | Some (g, rest) => Some (c :: g, rest)
          | None => None
          end
      end
  end.

(** One match attempt at the start of [s]. *)
Definition match_block (term : str) (s : str) : option (str * str) :=
  strip_prefix fence s ≫= opt_tag (fun r => strip_prefix [10] r ≫= lazy_group term).

(** [re.findall]: the leftmost match, then the scan resumes after it; where
    nothing matches the scan moves one character on.  A match consumes at
    least one character, so [fuel] above the length is never used up. *)
Fixpoint findall_from (term : str) (fuel : nat) (s : str) : list str :=
  match fuel with
  | O => []
  | S fuel' =>
      match match_block term s with
      | Some (g, rest) => g :: findall_from term fuel' rest
      | None =>
          match s with
          | [] => []
          | _ :: t => findall_from term fuel' t
          end
      end
  end.

Definition findall_blocks (term : str) (s : str) : list str :=
  findall_from term (S (length s)) s.

(** * src/shellai.py *)

Module Shellai.

Definition VERBOSE_LEN : nat := 20.

Definition default_system_prompt : str := py "
You are an AI assistant within a shell command 'shellai'. You operate by reading the
users scrollback. You can not see interactive input. Here are your guidelines:

DO ensure you present one command per response at the end, in a code block:
  ```bash
  command
  ```

DO NOT use multiple code blocks. For multiple commands, join with semicolons:
  ```bash
  command1; command2
  ```

DO precede commands with brief explanations.

DO NOT rely on your own knowledge; use `command --help` or `man command | cat`
  so both you and the user understand what is happening.

DO give a command to gather information when needed.

Do NOT suggest interactive editors like nano or vim, or other interactive programs.

DO use commands like `sed` or `echo >>` for file edits, or other non-interactive commands where applicable.

DO NOT add anything after command

If no command seems necessary, gather info or give a command for the user to explore.

ONLY ONE COMMAND PER RESPONSE AT END OF RESPONSE
".

Inductive wrapper : Type :=
| get_response_default_w
| get_response_gemini_w
| get_response_anthropic_w.

Record Provider : Type := {
  url : str;
  api_key_var : str;             (* the "api_key" entry: an environment variable name *)
  default_model : str;
  provider_wrapper : wrapper
}.

(** The module-level names the functions read. *)
Record Globals : Type := {
  args : Args;
  provider : Provider;
  api_key : str;
  prefix_input : str;
  default_tmux_target : str
}.

Definition subs : gmap N str :=
  {[ 34 := [92; 34];
     10 := [32];
     36 := [92; 36];
     96 := [92; 96];
     92 := [92; 92] ]}.

Definition clean_command (c : str) : str :=
  concat (map (fun x => default [x] (subs !! x)) c).

Definition hrule : str := py "------------------------------------------".

Definition get_response_debug (g : Globals) (prompt system_prompt : str) : M str :=
  when (verbose (args g))
    (print (py "raw input");;
     print hrule;;
     print (join [10] (map (fun line => py "# " ++ line) (splitlines prompt)));;
     print hrule);;
  let r1 := ljust VERBOSE_LEN (py "sys prompt len:")
            ++ str_of_Z (Z.of_nat (length system_prompt)) in
  let r2 := ljust VERBOSE_LEN (py "prompt len:")
            ++ str_of_Z (Z.of_nat (length prompt)) ++ [10] in
  first ← lift (index_first (removelast (splitlines prompt)));
  mret (r1 ++ r2
        ++ ljust VERBOSE_LEN (py "prefix_input:") ++ first ++ [10]
        ++ py "test code block:\n"
        ++ py "```bash\n echo \x22$(" ++ prefix_input g ++ py ")\x22\n```\n").

(** [response_data['choices'][0]['message']['content']] *)
Definition message_content (response_data : json) : result json :=
  choices ← getitem_key response_data (py "choices");
  first ← getitem_0 choices;
  message ← getitem_key first (py "message");
  getitem_key message (py "content").

Definition get_response_default (w : World) (g : Globals)
    (prompt system_prompt : str) : M json :=
  emit (HttpPost (url (provider g)) (api_key g) (model (args g)) system_prompt prompt);;
  response ← lift (requests_post w (url (provider g)) (api_key g)
                                 (model (args g)) system_prompt prompt);
  if (status_code response =? 200)%Z then
    response_data ← lift (json_body response);
    try_except
      (lift (message_content response_data))
      is_KeyError
      (print (py "unexpected output");;
       print_value response_data;;
       quit)
  else
    print (py "Error: " ++ str_of_Z (status_code response));;
    print (text response);;
    quit.

Definition get_response_gemini (w : World) (g : Globals)
    (prompt system_prompt : str) : M json :=
  if negb (gemini_installed w) then
    print (py "run pip install google-generativeai");; quit
  else
    emit (SdkCall (py "gemini") (model (args g)) system_prompt prompt);;
    response_text ← lift (gemini_generate w (model (args g)) system_prompt prompt);
    mret (JStr response_text).

Definition get_response_anthropic (w : World) (g : Globals)
    (prompt system_prompt : str) : M json :=
  if negb (anthropic_installed w) then
    print (py "run pip install anthropic");; quit
  else
    emit (SdkCall (py "anthropic") (model (args g)) system_prompt prompt);;
    response ← lift (anthropic_create w (model (args g)) system_prompt prompt);
    print (message_repr response);;
    first ← lift (index_first (content response));
    match first with
    | TextBlock t => mret (JStr t)
    | OtherBlock => raise PlainException
    end.

Definition call_wrapper (w : World) (g : Globals)
    (prompt system_prompt : str) : M json :=
  match provider_wrapper (provider g) with
  | get_response_default_w => get_response_default w g prompt system_prompt
  | get_response_gemini_w => get_response_gemini w g prompt system_prompt
  | get_response_anthropic_w => get_response_anthropic w g prompt system_prompt
  end.

(** Lines 193-204 of [get_response]: the response, from the debug stub or
    from the wrapper of the provider, shown when verbose. *)
Definition fetch_response (w : World) (g : Globals)
    (prompt system_prompt : str) : M json :=
  when (verbose (args g)) (print (py "getting response"));;
  response ← (if debug (args g)
              then r ← get_response_debug g prompt system_prompt; mret (JStr r)
              else call_wrapper w g prompt system_prompt);
  when (verbose (args g))
    (print (py "raw response");;
     print hrule;;
     print_value response;;
     print hrule);;
  mret response.

Definition get_response (w : World) (g : Globals)
    (prompt system_prompt : str) : M json :=
  response ← fetch_response w g prompt system_prompt;
  match log (args g) with
  | Some path =>
      lift (open_append w path);;
      written ← lift (as_str response);
      emit (Append path written)
  | None => mret tt
  end;;
  mret response.

(** The value [extract_command] returns, or the exception it ends with. *)
Definition extract_command_value (response : str) : result str :=
  let code_blocks := findall_blocks [10] response in
  match code_blocks with
  | _ :: _ =>
      (* Get the last line from the last code block *)
      block ← index_last code_blocks;
      index_last (split_on 10 (strip block))
  | [] =>
      (* just take last line as command if no code block *)
      index_last (splitlines (strip response))
  end.

Definition extract_command (g : Globals) (response : json) : M str :=
  response_text ← lift (as_str response);
  when (verbose (args g))
    (print (ljust VERBOSE_LEN (py "code_blocks:")
            ++ join (py ":") (findall_blocks [10] response_text)));;
  lift (extract_command_value response_text).

Definition put_command (w : World) (g : Globals) (command : str) : M unit :=
  let command := clean_command command in
  match log_commands (args g) with
  | Some path =>
      lift (open_append w path);;
      emit (Append path (command ++ [10]))
  | None => mret tt
  end;;
  (* presses enter on target tmux pane *)
  let enter := if auto (args g) then py "ENTER" else [] in
  (* allows user to repeatedly call ai with the same options *)
  command ←
    (if recursive (args g) then
       if bool_decide (target (args g) = default_tmux_target g) then
         mret (command ++ py ";shellai " ++ join [32] (argv_tail w))
       else
         emit (Run (py "tmux send-keys \x22shellai " ++ join [32] (argv_tail w)
                    ++ py "\x22 " ++ enter));;
         print [10];;
         mret command
     else mret command);
  (* send command to shell prompt *)
  emit (Run (py "tmux send-keys -t " ++ target (args g)
             ++ py " \x22" ++ command ++ py "\x22"));;
  when (bool_decide (target (args g) = default_tmux_target g)) (print [10]);;
  (* a delay when using auto so user can hopefully C-c out *)
  when (auto (args g))
    (sleep w (delay (args g));;
     emit (Run (py "tmux send-keys -t " ++ target (args g) ++ py "  " ++ enter))).

Definition main (w : World) (g : Globals) (prompt system_prompt : str) : M unit :=
  response ← get_response w g prompt system_prompt;
  (* Extract a command from the response *)
  command ← extract_command g response;
  when (negb (quiet (args g)))
    (print [10];;
     response_text ← lift (as_str response);
     shown ← lift (explanation w response_text command);
     print shown);;
  (* add command to Shell Prompt *)
  match command with
  | _ :: _ => put_command w g command
  | [] => mret tt
  end.

Definition providers : gmap str Provider :=
  {[ py "openrouter" :=
       {| url := py "https://openrouter.ai/api/v1/chat/completions";
          api_key_var := py "OPENROUTER_API_KEY";
          default_model := py "nousresearch/hermes-3-llama-3.1-405b:free";
          provider_wrapper := get_response_default_w |};
     py "xai" :=
       {| url := py "https://api.x.ai/v1/chat/completions";
          api_key_var := py "XAI_API_KEY";
          default_model := py "grok-beta";
          provider_wrapper := get_response_default_w |};
     py "gemini" :=
       {| url := py "https://generativelanguage.googleapis.com/v1beta/models/";
          api_key_var := py "GEMINI_API_KEY";
          default_model := py "gemini-1.5-flash-002";
          provider_wrapper := get_response_gemini_w |};
     py "anthropic" :=
       {| url := py "https://api.anthropic.com/v1/messages";
          api_key_var := py "ANTHROPIC_API_KEY";
          default_model := py "claude-3-5-sonnet-20240620";
          provider_wrapper := get_response_anthropic_w |};
     py "together" :=
       {| url := py "https://api.together.xyz/v1/chat/completions";
          api_key_var := py "TOGETHER_API_KEY";
          default_model := py "meta-llama/Llama-Vision-Free";
          provider_wrapper := get_response_default_w |};
     py "openai" :=
       {| url := py "https://api.openai.com/v1/chat/completions";
          api_key_var := py "OPENAI_API_KEY";
          default_model := py "gpt-4o-mini";
          provider_wrapper := get_response_default_w |} ]}.

(** [d[k]] on a dict *)
Definition dict_item {V} (d : gmap str V) (k : str) : result V :=
  match d !! k with
  | Some v => Ok v
  | None => Raise KeyError
  end.

(** [subprocess.check_output(cmd, shell=True).decode("utf-8")] *)
Definition run_check_output (w : World) (cmd : str) : M str :=
  emit (Run cmd);;
  lift (check_output w cmd).

Definition with_model (a : Args) (m : option str) : Args :=
  {| auto := auto a; recursive := recursive a; model := m; quiet := quiet a;
     verbose := verbose a; debug := debug a; target := target a;
     provider_name := provider_name a; log := log a;
     log_commands := log_commands a; file := file a;
     scrollback := scrollback a; system_prompt := system_prompt a;
     delay := delay a |}.

(** Lines 519-530: get input from stdin or tmux scrollback. *)
Definition select_input (w : World) (a : Args) (default_target : str) : M str :=
  if negb (stdin_isatty w) then mret (stdin_read w)
  else if getenv_differs (environ w) (py "TMUX") [] then
    input_string ← run_check_output w
      (py "tmux capture-pane -p -t " ++ target a ++ py " -S -"
       ++ str_of_Z (scrollback a));
    (* remove shellai invocation from prompt (hopefully) *)
    if bool_decide (target a = default_target)
    then mret (join [10] (removelast (splitlines (strip input_string))))
    else mret input_string
  else mret [].

(** Lines 552-558: the credential of the provider. *)
Definition get_key (w : World) (p : Provider) : M str :=
  try_except
    (lift (dict_item (environ w) (api_key_var p)))
    is_KeyError
    (print (py "need " ++ api_key_var p ++ py " environment variable");;
     quit).

(** What the script has established when it looks for the credential. *)
Record Startup : Type := {
  st_default_tmux_target : str;
  st_args : Args;
  st_arg_input : list str;
  st_provider : Provider;
  st_system_prompt : str;
  st_input_string : str
}.

(** Module level up to line 550: pane name, arguments, provider, system
    prompt, model, input text, verbose report, system information. *)
Definition startup (w : World) : M Startup :=
  pane ← run_check_output w (py "tmux display-message -p '#S:#I.#P'");
  let default_target := strip pane in
  let '(a, arg_input) := parse_known_args w default_target in
  p ← lift (dict_item providers (provider_name a));
  input_system_prompt ←
    match system_prompt a with
    | Some path =>
        s ← lift (open_read w path);
        when (verbose a) (print (py "system prompt removed"));;
        mret s
    | None => mret default_system_prompt
    end;
  let a := match model a with
           | None => with_model a (Some (default_model p))
           | Some _ => a
           end in
  input_string ← select_input w a default_target;
  when (verbose a)
    (print_noend (ljust VERBOSE_LEN (py "Flags: "));;
     print (join (ljust (VERBOSE_LEN + 2) (py ",\n")) (split_on 44 (repr_args w)));;
     print_noend (ljust VERBOSE_LEN (py "Prompt prefix: "));;
     print (join [32] arg_input);;
     print_noend (ljust VERBOSE_LEN (py "Provider:"));;
     print (join (ljust (VERBOSE_LEN + 2) (py ",\n")) (split_on 44 (repr_provider w)));;
     print_noend (ljust VERBOSE_LEN (py "Using model:"));;
     print_value (match model a with Some m => JStr m | None => JNull end);;
     print_noend (ljust VERBOSE_LEN (py "Target:"));;
     print (target a);;
     print [10]);;
  (* Add system info to prompt *)
  name ← lift (os_release_name w);
  mret {| st_default_tmux_target := default_target;
          st_args := a;
          st_arg_input := arg_input;
          st_provider := p;
          st_system_prompt := input_system_prompt ++ py "user os: " ++ name;
          st_input_string := input_string |}.

(** Lines 552-573, after [startup]. *)
Definition run_from (w : World) (st : Startup) : M unit :=
  key ← get_key w (st_provider st);
  (* add input from command invocation *)
  let prefix := match st_arg_input st with
                | [] => []
                | _ => join [32] (st_arg_input st)
                end in
  prefix ← match file (st_args st) with
           | Some path => s ← lift (open_read w path); mret (prefix ++ s)
           | None => mret prefix
           end;
  (* start processing input *)
  let prompt := prefix ++ py ":\n" ++ st_input_string st in
  match prefix ++ st_input_string st with
  | _ :: _ =>
      main w {| args := st_args st; provider := st_provider st; api_key := key;
                prefix_input := prefix;
                default_tmux_target := st_default_tmux_target st |}
           prompt (st_system_prompt st)
  | [] => print (py "no input")
  end.

(** The whole script. *)
Definition script (w : World) : M unit :=
  st ← startup w;
  run_from w st.

End Shellai.

(** [re.sub(r"```.*?```", "", s, flags=re.DOTALL)] *)

(** [.*?] followed by the literal [term]: the text after the first [term]. *)
Fixpoint skip_until (term : str) (s : str) : option str :=
  match strip_prefix term s with
  | Some rest => Some rest
  | None =>
      match s with
      | [] => None
      | _ :: t => skip_until term t
      end
  end.

Fixpoint remove_fenced_from (fuel : nat) (s : str) : str :=
  match fuel with
  | O => s
  | S fuel' =>
      match strip_prefix fence s ≫= skip_until fence with
      | Some rest => remove_fenced_from fuel' rest
      | None =>
          match s with
          | [] => []
          | c :: t => c :: remove_fenced_from fuel' t
          end
      end
  end.

Definition remove_fenced (s : str) : str := remove_fenced_from (S (length s)) s.

(** * src/shellAI.py *)

Module Legacy.

Definition VERBOSELEN : nat := 20.

Definition prompt : str := py "
You are an AI assistant within a shell command 'ai'. You operate by reading the 
users scrollback. You can not see interactive input. Here are your guidelines:

- DO ensure you present one command per response at the end, in a code block:
  ```bash
  command
  ```

- DO NOT use multiple code blocks. For multiple commands, join with semicolons:
  ```bash
  command1; command2
  ```

- DO precede commands with brief explanations.

- DO NOT rely on your own knowledge; use `command --help` or `man command | cat`
  so both you and the user understand what is happening.

- DO give a command to gather information when needed.

- Do NOT suggest interactive editors like nano or vim, or other interactive programs.

- DO use commands like `sed` or `echo >>` for file edits, or other non-interactive commands where applicable.

- If no command seems necessary, gather info or give a command for the user to explore.
".

Definition subs : gmap N str :=
  {[ 34 := [92; 34];
     10 := [];
     36 := [92; 36];
     96 := [92; 96];
     92 := [92; 92] ]}.

Definition clean_command (c : str) : str :=
  concat (map (fun x => default [x] (subs !! x)) c).

(** The names of the flags that are set, in the order of the parser. *)
Definition flags (f : LegacyFlags) : list str :=
  (if l_auto f then [py "auto"] else [])
  ++ (if l_recursive f then [py "recursive"] else [])
  ++ (if l_pro f then [py "pro"] else [])
  ++ (if l_terse f then [py "terse"] else [])
  ++ (if l_verbose f then [py "verbose"] else [])
  ++ (if l_debug f then [py "debug"] else []).

(** Lines 111-116: get input from stdin or tmux scrollback. *)
Definition select_input (w : World) : M str :=
  if negb (stdin_isatty w) then mret (stdin_read w)
  else if getenv_differs (environ w) (py "TMUX") [] then
    emit (Run (py "tmux capture-pane -pS -1000"));;
    lift (check_output w (py "tmux capture-pane -pS -1000"))
  else mret [].

(** Lines 135-146: the command, and the response as it is shown. *)
Definition extract_command_value (response : str) : result (str * str) :=
  let code_blocks := findall_blocks fence response in
  match code_blocks with
  | _ :: _ =>
      (* Get the last line from the last code block *)
      block ← index_last code_blocks;
      command ← index_last (split_on 10 (strip block));
      mret (command, response)
  | [] =>
      (* just take last line as command if no code block *)
      let resp := splitlines (strip response) in
      command ← index_last resp;
      mret (command, join [10] (removelast resp))
  end.

(** Lines 151-161: clean the command, send it, wait. *)
Definition send_command (w : World) (f : LegacyFlags) (command : str) : M unit :=
  let command := clean_command command in
  let enter := if l_auto f then py "ENTER" else [] in
  let command := if l_recursive f
                 then command ++ py ";ai " ++ join [32] (argv_tail w)
                 else command in
  emit (Run (join [32] [py "tmux send-keys"; py "\x22" ++ command ++ py "\x22"; enter]));;
  print [10];;
  when (l_auto f) (sleep w 2).

(** Lines 90-94. *)
Definition get_key (w : World) : M str :=
  try_except
    (lift (Shellai.dict_item (environ w) (py "GEMINI_API_KEY")))
    is_KeyError
    (print (py "need GEMINI_API_KEY environment variable");;
     quit).

(** The whole script. *)
Definition script (w : World) : M unit :=
  (if gemini_installed w then mret tt else raise ModuleNotFoundError);;
  let '(f, arg_input) := legacy_parse_known_args w in
  when (l_verbose f)
    (print_noend (ljust VERBOSELEN (py "Flags: "));;
     print (join [32] (flags f));;
     print_noend (ljust VERBOSELEN (py "Prompt prefix: "));;
     print (join [32] arg_input));;
  emit (Run (py "hostnamectl"));;
  system_info ← lift (check_output w (py "hostnamectl"));
  let prompt := prompt ++ py "\nHere is the output of hostnamectl\n" ++ system_info in
  let model := if l_pro f then py "gemini-1.5-pro-002" else py "gemini-1.5-flash-002" in
  get_key w;;
  input_string ← select_input w;
  let prefix_input := match arg_input with
                      | [] => []
                      | _ => join [32] arg_input
                      end in
  match prefix_input ++ input_string with
  | _ :: _ =>
      let user := prefix_input ++ py ":\n" ++ input_string in
      when (l_verbose f)
        (print_noend (ljust VERBOSELEN (py "Tokens:"));;
         emit (SdkCall (py "gemini.count_tokens") (Some model) prompt user);;
         tokens ← lift (gemini_count_tokens w user);
         print tokens);;
      response ←
        (if l_debug f then mret (py "test msg \n echo test \n echo test \n")
         else
           emit (SdkCall (py "gemini") (Some model) prompt user);;
           lift (gemini_generate w (Some model) prompt user));
      (* Extract a command from the response *)
      '(command, response) ← lift (extract_command_value response);
      when (negb (l_terse f)) (print (remove_fenced response));;
      match command with
      | _ :: _ => send_command w f command
      | [] => mret tt
      end
  | [] => print (py "no input")
  end.

End Legacy.

(** * Specification-side notions *)

(** The substitution table of the sanitizer as the specification words it;
    [newline_as] is a space in [shellai.py] and nothing in [shellAI.py]. *)
Definition rewrite_char (newline_as : str) (x : N) : str :=
  if x =? 34 then [92; 34]
  else if x =? 10 then newline_as
  else if x =? 36 then [92; 36]
  else if x =? 96 then [92; 96]
  else if x =? 92 then [92; 92]
  else [x].

(** The characters the table maps to an escaped form. *)
Definition escaped_form (x : N) : bool :=
  (x =? 34) || (x =? 36) || (x =? 96) || (x =? 92).

(** Text that is safe inside a double-quoted shell string: read from the
    left, every backslash is followed by a double quote, a dollar sign, a
    backtick or a backslash, which it escapes; outside such pairs there is
    no double quote, dollar sign, backtick, backslash or line feed. *)
Fixpoint well_escaped (s : str) : bool :=
  match s with
  | [] => true
  | c :: t =>
      if c =? 92 then
        match t with
        | d :: t' => escaped_form d && well_escaped t'
        | [] => false
        end
      else negb (escaped_form c) && negb (c =? 10) && well_escaped t
  end.

(** The last non-empty line of a code block, as the extraction algorithm
    is specified: strip the block, split it into lines, take the last line
    that is not empty (the empty text if there is none). *)
Definition last_nonempty_line (block : str) : str :=
  default [] (last (filter (fun l => l ≠ []) (split_on 10 (strip block)))).

(** Responses made of prose and fenced code blocks. *)
Inductive tag : Type := NoTag | Bash | Shell.

Definition tag_text (g : tag) : str :=
  match g with
  | NoTag => []
  | Bash => py "bash"
  | Shell => py "shell"
  end.

Inductive segment : Type :=
| Prose (t : str)
| Block (g : tag) (body : str).

Definition render_segment (x : segment) : str :=
  match x with
  | Prose t => t
  | Block g body => fence ++ tag_text g ++ [10] ++ body ++ fence
  end.

Definition render (doc : list segment) : str := concat (map render_segment doc).

Definition block_bodies (doc : list segment) : list str :=
  omap (fun x => match x with Block _ body => Some body | Prose _ => None end) doc.

(** Prose has no backtick; a block body is not empty and has no backtick. *)
Definition well_formed (x : segment) : Prop :=
  match x with
  | Prose t => 96 ∉ t
  | Block _ body => body ≠ [] ∧ 96 ∉ body
  end.

(** * Sample invocations *)

Definition sample_args (t : str) : Args :=
  {| auto := false; recursive := false; model := None; quiet := false;
     verbose := false; debug := false; target := t;
     provider_name := py "openrouter"; log := None; log_commands := None;
     file := None; scrollback := 0; system_prompt := None; delay := 2 |}.

Definition sample_response (status : Z) (body : str) (data : result json)
  : http_response :=
  {| status_code := status; text := body; json_body := data |}.

(** A terminal session inside tmux: pane [main:0.0], the words [list files]
    on the command line.  The parameters are the environment variables, the
    parsed arguments, the answer of the provider and the outcome of
    appending to a log file. *)
Definition sample_world (env : gmap str str) (a : str -> Args)
    (answer : result http_response) (append : result unit) : World :=
  {| environ := env;
     argv_tail := [py "list"; py "files"];
     parse_known_args := fun d => (a d, [py "list"; py "files"]);
     legacy_parse_known_args :=
       ({| l_auto := false; l_recursive := false; l_pro := false;
           l_terse := false; l_verbose := false; l_debug := false |},
        [py "list"; py "files"]);
     repr_args := py "{}";
     repr_provider := py "{}";
     stdin_isatty := true;
     stdin_read := [];
     check_output := fun cmd =>
       if startswith (py "tmux display-message") cmd then Ok (py "main:0.0\n")
       else if startswith (py "tmux capture-pane") cmd then Ok (py "$ ls\n$ shellai list files\n")
       else Ok (py "Static hostname: box\n");
     open_read := fun _ => Raise OSError;
     open_append := fun _ => append;
     os_release_name := Ok (py "Debian GNU/Linux");
     requests_post := fun _ _ _ _ _ => answer;
     gemini_installed := true;
     gemini_generate := fun _ _ _ => Raise (ExternalError (py "no network"));
     gemini_count_tokens := fun _ => Raise (ExternalError (py "no network"));
     anthropic_installed := true;
     anthropic_create := fun _ _ _ => Raise (ExternalError (py "no network"));
     explanation := fun response _ => Ok response;
     long_sleep := fun _ => Raise OSError |}.

Definition tmux_env : gmap str str :=
  {[ py "TMUX" := py "/tmp/tmux-1000/default,4242,0" ]}.

Definition keyed_env : gmap str str :=
  <[ py "OPENROUTER_API_KEY" := py "sk-test" ]> tmux_env.

Definition server_error : result http_response :=
  Ok (sample_response 500 (py "Internal Server Error") (Raise ValueError)).

Definition sample_globals (a : Args) : Shellai.Globals :=
  {| Shellai.args := a;
     Shellai.provider :=
       {| Shellai.url := py "https://openrouter.ai/api/v1/chat/completions";
          Shellai.api_key_var := py "OPENROUTER_API_KEY";
          Shellai.default_model := py "nousresearch/hermes-3-llama-3.1-405b:free";
          Shellai.provider_wrapper := Shellai.get_response_default_w |};
     Shellai.api_key := py "sk-test";
     Shellai.prefix_input := py "list files";
     Shellai.default_tmux_target := py "main:0.0" |}.

(** * Further notions used in the statements *)

(** The whole pass of the table over a text. *)
Definition rewrite_all (newline_as : str) (c : str) : str :=
  concat (map (rewrite_char newline_as) c).

Definition two_block_response : list segment :=
  [ Prose (py "First greet, then finish.\n");
    Block Bash (py "echo hi\n");
    Prose (py "\nand then\n");
    Block NoTag (py "echo bye\necho final\n") ].

(** No sub-process is started: in particular nothing is sent to a pane. *)
Definition no_run (e : event) : Prop :=
  match e with
  | Run _ => False
  | _ => True
  end.

(** No network call and no pane injection. *)
Definition local_only (e : event) : Prop :=
  is_network e = false ∧ is_send_keys e = false.

(** The announcement of [get_response] in verbose mode. *)
Definition announce (g : Shellai.Globals) : list event :=
  if verbose (Shellai.args g) then [Print (py "getting response" ++ [10])] else [].

(** The request [get_response_default] sends. *)
Definition request (g : Shellai.Globals) (prompt sp : str) : event :=
  HttpPost (Shellai.url (Shellai.provider g)) (Shellai.api_key g)
           (model (Shellai.args g)) sp prompt.

(** The names the functions read when the script calls [main] with no
    [--file]: the prefix is the joined command-line words. *)
Definition globals_at (st : Shellai.Startup) (key : str) : Shellai.Globals :=
  {| Shellai.args := Shellai.st_args st;
     Shellai.provider := Shellai.st_provider st;
     Shellai.api_key := key;
     Shellai.prefix_input := join [32] (Shellai.st_arg_input st);
     Shellai.default_tmux_target := Shellai.st_default_tmux_target st |}.

Definition prompt_at (st : Shellai.Startup) : str :=
  join [32] (Shellai.st_arg_input st) ++ py ":\n" ++ Shellai.st_input_string st.

Definition missing_choices : result http_response :=
  Ok (sample_response 200 (py "{}") (Ok (JDict []))).

Definition logging_args (t : str) : Args :=
  {| auto := false; recursive := false; model := None; quiet := false;
     verbose := false; debug := true; target := t;
     provider_name := py "openrouter"; log := Some (py "shellai.log");
     log_commands := None;
     file := None; scrollback := 0; system_prompt := None; delay := 2 |}.

Definition command_log_args (t : str) : Args :=
  {| auto := false; recursive := false; model := None; quiet := false;
     verbose := false; debug := true; target := t;
     provider_name := py "openrouter"; log := None;
     log_commands := Some (py "commands.log");
     file := None; scrollback := 0; system_prompt := None; delay := 2 |}.

(** The call that places [text] on the input line of the target pane. *)
Definition inject_event (g : Shellai.Globals) (text : str) : event :=
  Run (py "tmux send-keys -t " ++ target (Shellai.args g)
       ++ py " \x22" ++ text ++ py "\x22").



Definition auto_args (t : str) : Args :=
  {| auto := true; recursive := false; model := None; quiet := false;
     verbose := false; debug := true; target := t;
     provider_name := py "openrouter"; log := None; log_commands := None;
     file := None; scrollback := 0; system_prompt := None; delay := 2 |}.



(** A delay [time.sleep] takes without asking more of the system than any
    clock gives: a number from 0 to less than 2**62 ns (about 146 years). *)
Definition short_delay (d : float) : bool :=
  negb (is_nan d)
  && ((0 <=? nanoseconds d) && (nanoseconds d <? 4611686018427387904))%float.

(** A code point of the surrogate range, which UTF-8 does not encode. *)
Definition is_surrogate (c : N) : bool := ((55296 <=? c) && (c <=? 57343))%N.




Definition own_pane (g : Shellai.Globals) : bool :=
  bool_decide (target (Shellai.args g) = Shellai.default_tmux_target g).


Definition placed_text (w : World) (g : Shellai.Globals) (command : str) : str :=
  if recursive (Shellai.args g) && own_pane g
  then Shellai.clean_command command ++ py ";shellai " ++ join [32] (argv_tail w)
  else Shellai.clean_command command.


(** * Notions used in the further properties *)

(** A character the sanitizer leaves as it is. *)
Definition plain_char (x : N) : bool := negb (escaped_form x) && negb (x =? 10).

(** What a POSIX shell reads between double quotes when no expansion is
    triggered: a backslash before a double quote, a dollar sign, a backtick
    or a backslash gives that character; a backslash before a line feed
    gives nothing; every other character, a lone backslash too, is
    literal. *)
Fixpoint read_back (s : str) : str :=
  match s with
  | [] => []
  | c :: t =>
      if c =? 92 then
        match t with
        | d :: t' =>
            if escaped_form d then d :: read_back t'
            else if d =? 10 then read_back t'
            else 92 :: read_back t
        | [] => [92]
        end
      else c :: read_back t
  end.




(** A run fed through a pipe: standard input is not a terminal and holds
    [piped]; [words] are the words on the command line; [sdk] tells whether
    the vendor modules are installed. *)
Definition piped_world (env : gmap str str) (a : str -> Args)
    (words : list str) (piped : str) (sdk : bool) : World :=
  {| environ := env;
     argv_tail := words;
     parse_known_args := fun d => (a d, words);
     legacy_parse_known_args :=
       ({| l_auto := false; l_recursive := false; l_pro := false;
           l_terse := false; l_verbose := false; l_debug := false |},
        words);
     repr_args := py "{}";
     repr_provider := py "{}";
     stdin_isatty := false;
     stdin_read := piped;
     check_output := fun cmd =>
       if startswith (py "tmux display-message") cmd then Ok (py "main:0.0\n")
       else Ok (py "Static hostname: box\n");
     open_read := fun _ => Raise OSError;
     open_append := fun _ => Ok tt;
     os_release_name := Ok (py "Debian GNU/Linux");
     requests_post := fun _ _ _ _ _ =>
       Ok (sample_response 200 (py "{...}")
             (Ok (JDict [(py "choices",
                          JList [JDict [(py "message",
                                         JDict [(py "role", JStr (py "assistant"));
                                                (py "content",
                                                 JStr (py "Use ls.\n```bash\nls -la\n"))])]])])));
     gemini_installed := sdk;
     gemini_generate := fun _ _ _ => Raise (ExternalError (py "no network"));
     gemini_count_tokens := fun _ => Raise (ExternalError (py "no network"));
     anthropic_installed := sdk;
     anthropic_create := fun _ _ _ => Raise (ExternalError (py "no network"));
     explanation := fun response _ => Ok response;
     long_sleep := fun _ => Raise OSError |}.

Definition empty_choices : result http_response :=
  Ok (sample_response 200 (py "{...}") (Ok (JDict [(py "choices", JList [])]))).

Definition null_content : result http_response :=
  Ok (sample_response 200 (py "{...}")
        (Ok (JDict [(py "choices",
                     JList [JDict [(py "message",
                                    JDict [(py "content", JNull)])]])]))).

Definition gemini_globals (a : Args) : Shellai.Globals :=
  {| Shellai.args := a;
     Shellai.provider :=
       {| Shellai.url := py "https://generativelanguage.googleapis.com/v1beta/models/";
          Shellai.api_key_var := py "GEMINI_API_KEY";
          Shellai.default_model := py "gemini-1.5-flash-002";
          Shellai.provider_wrapper := Shellai.get_response_gemini_w |};
     Shellai.api_key := py "g-test";
     Shellai.prefix_input := py "list files";
     Shellai.default_tmux_target := py "main:0.0" |}.

(** An event of the start of the script: a print, the request for the name
    of the pane, or a capture of the pane. *)
Definition reads_pane_only (e : event) : Prop :=
  match e with
  | Print _ | PrintValue _ => True
  | Run cmd => cmd = py "tmux display-message -p '#S:#I.#P'"
               ∨ startswith (py "tmux capture-pane -p -t ") cmd = true
  | _ => False
  end.

(** The same arguments and names with another [--verbose] setting. *)
Definition with_verbose_args (a : Args) (b : bool) : Args :=
  {| auto := auto a; recursive := recursive a; model := model a; quiet := quiet a;
     verbose := b; debug := debug a; target := target a;
     provider_name := provider_name a; log := log a;
     log_commands := log_commands a; file := file a;
     scrollback := scrollback a; system_prompt := system_prompt a;
     delay := delay a |}.

Definition with_verbose (g : Shellai.Globals) (b : bool) : Shellai.Globals :=
  {| Shellai.args := with_verbose_args (Shellai.args g) b;
     Shellai.provider := Shellai.provider g;
     Shellai.api_key := Shellai.api_key g;
     Shellai.prefix_input := Shellai.prefix_input g;
     Shellai.default_tmux_target := Shellai.default_tmux_target g |}.

(** The events of a trace other than prints. *)
Definition effects (t : list event) : list event :=
  List.filter (fun e => match e with Print _ | PrintValue _ => false | _ => true end) t.

(** Two computations that differ in what they print only. *)
Definition same_but_prints {A} (m m' : M A) : Prop :=
  outcome m = outcome m' ∧ effects (trace m) = effects (trace m').

(** An event that a standard output encoded as UTF-8 takes: a printed text
    holds no surrogate code point.  (The [repr] of a value escapes them.) *)
Definition prints_encodable (e : event) : bool :=
  match e with
  | Print s => forallb (fun c => negb (is_surrogate c)) s
  | _ => true
  end.

(** [m] ends as [m'] does, and every event of [m] is one of [m']. *)
Definition covered {A} (m m' : M A) : Prop :=
  outcome m = outcome m' ∧ trace m ⊆ trace m'.

Definition gemini_env : gmap str str :=
  <[ py "GEMINI_API_KEY" := py "g-test" ]> keyed_env.


Definition unknown_provider_args (t : str) : Args :=
  {| auto := false; recursive := false; model := None; quiet := false;
     verbose := false; debug := false; target := t;
     provider_name := py "mistral"; log := None; log_commands := None;
     file := None; scrollback := 0; system_prompt := None; delay := 2 |}.

Definition gemini_args (t : str) : Args :=
  {| auto := false; recursive := false; model := None; quiet := false;
     verbose := false; debug := false; target := t;
     provider_name := py "gemini"; log := None; log_commands := None;
     file := None; scrollback := 0; system_prompt := None; delay := 2 |}.

Definition recursive_args (t : str) : Args :=
  {| auto := false; recursive := true; model := None; quiet := true;
     verbose := false; debug := true; target := t;
     provider_name := py "openrouter"; log := None; log_commands := None;
     file := None; scrollback := 0; system_prompt := None; delay := 2 |}.

(** * Proof automation *)

(** Decides a closed decidable statement by evaluation. *)
Ltac computed := refine (bool_decide_unpack _ _); vm_compute; exact I.

(** Splits conjunctions only. *)
Ltac conjuncts := repeat match goal with |- _ ∧ _ => split end.

(** * Lemmas on the sanitizer *)

Section Sanitizer.

Lemma shellai_subs_get (x : N) :
  default [x] (Shellai.subs !! x) = rewrite_char [32] x.
Proof.
  unfold rewrite_char, Shellai.subs.
  destruct (N.eqb_spec x 34) as [->|H1]; [reflexivity|].
  destruct (N.eqb_spec x 10) as [->|H2]; [reflexivity|].
  destruct (N.eqb_spec x 36) as [->|H3]; [reflexivity|].
  destruct (N.eqb_spec x 96) as [->|H4]; [reflexivity|].
  destruct (N.eqb_spec x 92) as [->|H5]; [reflexivity|].
  rewrite !lookup_insert_ne, lookup_singleton_ne by congruence.
  reflexivity.
Qed.

Lemma legacy_subs_get (x : N) :
  default [x] (Legacy.subs !! x) = rewrite_char [] x.
Proof.
  unfold rewrite_char, Legacy.subs.
  destruct (N.eqb_spec x 34) as [->|H1]; [reflexivity|].
  destruct (N.eqb_spec x 10) as [->|H2]; [reflexivity|].
  destruct (N.eqb_spec x 36) as [->|H3]; [reflexivity|].
  destruct (N.eqb_spec x 96) as [->|H4]; [reflexivity|].
  destruct (N.eqb_spec x 92) as [->|H5]; [reflexivity|].
  rewrite !lookup_insert_ne, lookup_singleton_ne by congruence.
  reflexivity.
Qed.

Lemma shellai_clean_command_table (c : str) :
  Shellai.clean_command c = concat (map (rewrite_char [32]) c).
Proof.
  unfold Shellai.clean_command. f_equal.
  apply map_ext. intros x. apply shellai_subs_get.
Qed.

Lemma legacy_clean_command_table (c : str) :
  Legacy.clean_command c = concat (map (rewrite_char []) c).
Proof.
  unfold Legacy.clean_command. f_equal.
  apply map_ext. intros x. apply legacy_subs_get.
Qed.

Variable newline_as : str.
Hypothesis newline_as_plain :
  newline_as = [32] ∨ newline_as = [].

Local Abbreviation rewrite := (rewrite_all newline_as).

Lemma rewrite_cons (x : N) (c : str) :
  rewrite (x :: c) = rewrite_char newline_as x ++ rewrite c.
Proof. reflexivity. Qed.

Lemma rewrite_well_escaped (c : str) : well_escaped (rewrite c) = true.
Proof.
  induction c as [|x c IH]; [reflexivity|].
  rewrite rewrite_cons. unfold rewrite_char.
  destruct (N.eqb_spec x 34) as [->|H1]; [exact IH|].
  destruct (N.eqb_spec x 10) as [->|H2].
  { destruct newline_as_plain as [-> | ->]; exact IH. }
  destruct (N.eqb_spec x 36) as [->|H3]; [exact IH|].
  destruct (N.eqb_spec x 96) as [->|H4]; [exact IH|].
  destruct (N.eqb_spec x 92) as [->|H5]; [exact IH|].
  cbn [app well_escaped]. unfold escaped_form.
  apply N.eqb_neq in H1, H2, H3, H4, H5.
  rewrite H1, H2, H3, H4, H5. exact IH.
Qed.

Lemma rewrite_no_newline (c : str) : 10 ∉ rewrite c.
Proof.
  induction c as [|x c IH]; [apply not_elem_of_nil|].
  rewrite rewrite_cons. rewrite elem_of_app. intros [H|H]; [|exact (IH H)].
  apply list_elem_of_In in H. revert H. unfold rewrite_char.
  destruct (N.eqb_spec x 34) as [->|_]; [cbn; intuition discriminate|].
  destruct (N.eqb_spec x 10) as [->|H2].
  { destruct newline_as_plain as [-> | ->]; cbn; intuition discriminate. }
  destruct (N.eqb_spec x 36) as [->|_]; [cbn; intuition discriminate|].
  destruct (N.eqb_spec x 96) as [->|_]; [cbn; intuition discriminate|].
  destruct (N.eqb_spec x 92) as [->|_]; [cbn; intuition discriminate|].
  cbn. intuition congruence.
Qed.

Lemma rewrite_length (c : str) :
  10 ∉ c ->
  length (rewrite c) = (length c + length (List.filter escaped_form c))%nat.
Proof.
  induction c as [|x c IH]; [reflexivity|].
  intros Hnl. apply not_elem_of_cons in Hnl as [Hx Hc].
  rewrite rewrite_cons, length_app, IH by exact Hc.
  cbn [List.filter length]. unfold rewrite_char, escaped_form.
  destruct (N.eqb_spec x 10) as [->|_]; [congruence|].
  destruct (x =? 34), (x =? 36), (x =? 96), (x =? 92); cbn; lia.
Qed.

Lemma rewrite_keeps_escapes (c : str) :
  existsb escaped_form c = true ->
  (0 < length (List.filter escaped_form (rewrite c)))%nat.
Proof.
  induction c as [|x c IH]; [discriminate|].
  cbn [existsb]. rewrite rewrite_cons, List.filter_app, length_app.
  intros [Hx|Hc]%orb_true_iff.
  - unfold rewrite_char. revert Hx. unfold escaped_form.
    destruct (N.eqb_spec x 34) as [->|_]; [cbn; lia|].
    destruct (N.eqb_spec x 10) as [->|_]; [discriminate|].
    destruct (N.eqb_spec x 36) as [->|_]; [cbn; lia|].
    destruct (N.eqb_spec x 96) as [->|_]; [cbn; lia|].
    destruct (N.eqb_spec x 92) as [->|_]; [cbn; lia|].
    discriminate.
  - specialize (IH Hc). lia.
Qed.

Lemma rewrite_twice_differs (c : str) :
  existsb escaped_form c = true -> rewrite (rewrite c) ≠ rewrite c.
Proof.
  intros Hc Heq. apply (f_equal length) in Heq.
  rewrite (rewrite_length (rewrite c)) in Heq by apply rewrite_no_newline.
  pose proof (rewrite_keeps_escapes c Hc). lia.
Qed.

End Sanitizer.

(** * Lemmas on the scanner *)

Lemma fence_chars : fence = [96; 96; 96].
Proof. reflexivity. Qed.

Lemma bash_chars : py "bash" = [98; 97; 115; 104].
Proof. reflexivity. Qed.

Lemma shell_chars : py "shell" = [115; 104; 101; 108; 108].
Proof. reflexivity. Qed.

Lemma strip_prefix_app (p s : str) : strip_prefix p (p ++ s) = Some s.
Proof.
  induction p as [|a p IH]; [reflexivity|].
  cbn. rewrite N.eqb_refl. exact IH.
Qed.

Lemma strip_prefix_Some (p s r : str) :
  strip_prefix p s = Some r -> s = p ++ r.
Proof.
  revert s. induction p as [|a p IH]; intros s H.
  - cbn in *. congruence.
  - destruct s as [|b s]; [discriminate|]. cbn in H.
    destruct (N.eqb_spec a b) as [->|]; [|discriminate].
    cbn. f_equal. apply IH, H.
Qed.

Lemma strip_prefix_head (a b : N) (p s : str) :
  a ≠ b -> strip_prefix (a :: p) (b :: s) = None.
Proof. intros H. cbn. apply N.eqb_neq in H. rewrite H. reflexivity. Qed.

Lemma lazy_group_Some (term s g rest : str) :
  lazy_group term s = Some (g, rest) -> s = g ++ term ++ rest ∧ g ≠ [].
Proof.
  revert g. induction s as [|c t IH]; intros g H; [discriminate|].
  cbn in H. destruct (strip_prefix term t) as [r|] eqn:E.
  - injection H as <- <-. apply strip_prefix_Some in E. subst t. done.
  - destruct (lazy_group term t) as [[g' r']|]; [|discriminate].
    injection H as <- <-. destruct (IH g' eq_refl) as [-> _]. done.
Qed.

Lemma lazy_group_cons (term : str) (c : N) (t : str) :
  lazy_group term (c :: t) =
  match strip_prefix term t with
  | Some rest => Some ([c], rest)
  | None =>
      match lazy_group term t with
      | Some (g, rest) => Some (c :: g, rest)
      | None => None
      end
  end.
Proof. reflexivity. Qed.

(** The shortest group: when the first character of [term] does not occur
    in [g], the group found in [g ++ term ++ rest] is [g]. *)
Lemma lazy_group_exact (a : N) (term' g rest : str) :
  g ≠ [] -> a ∉ g ->
  lazy_group (a :: term') (g ++ (a :: term') ++ rest) = Some (g, rest).
Proof.
  induction g as [|c g IH]; [done|]. intros _ Hg.
  apply not_elem_of_cons in Hg as [Hc Hg].
  rewrite <- app_comm_cons, lazy_group_cons.
  destruct g as [|c' g].
  - rewrite app_nil_l, strip_prefix_app. reflexivity.
  - rewrite IH by done.
    rewrite <- app_comm_cons, strip_prefix_head; [reflexivity|].
    intros ->. apply Hg. left.
Qed.

Lemma match_block_shorter (term s g rest : str) :
  match_block term s = Some (g, rest) -> (length rest < length s)%nat.
Proof.
  unfold match_block. intros H.
  destruct (strip_prefix fence s) as [x|] eqn:E; [|discriminate].
  apply strip_prefix_Some in E. subst s. cbn [mbind option_bind] in H.
  assert (Hk : ∀ y, strip_prefix [10] y ≫= lazy_group term = Some (g, rest) ->
                    (length rest < length y)%nat).
  { intros y Hy. destruct (strip_prefix [10] y) as [z|] eqn:Ez; [|discriminate].
    apply strip_prefix_Some in Ez. subst y. cbn in Hy.
    apply lazy_group_Some in Hy as [-> _]. rewrite !length_app. cbn. lia. }
  assert (Hp : ∀ p, strip_prefix p x ≫= (fun r => strip_prefix [10] r ≫= lazy_group term)
                    = Some (g, rest) -> (length rest < length x)%nat).
  { intros p Hy. destruct (strip_prefix p x) as [z|] eqn:Ez; [|discriminate].
    apply strip_prefix_Some in Ez. subst x. cbn in Hy.
    apply Hk in Hy. rewrite length_app. lia. }
  rewrite length_app. unfold opt_tag in H.
  destruct (strip_prefix (py "bash") x ≫= _) as [r1|] eqn:E1.
  { injection H as ->. apply Hp in E1. lia. }
  destruct (strip_prefix (py "shell") x ≫= _) as [r2|] eqn:E2.
  { injection H as ->. apply Hp in E2. lia. }
  apply Hk in H. lia.
Qed.

Lemma findall_from_fuel (term : str) (fuel1 fuel2 : nat) (s : str) :
  (length s < fuel1)%nat -> (length s < fuel2)%nat ->
  findall_from term fuel1 s = findall_from term fuel2 s.
Proof.
  revert fuel2 s. induction fuel1 as [|fuel1 IH]; intros fuel2 s H1 H2; [lia|].
  destruct fuel2 as [|fuel2]; [lia|]. cbn [findall_from].
  destruct (match_block term s) as [[g rest]|] eqn:E.
  - apply match_block_shorter in E. f_equal. apply IH; lia.
  - destruct s as [|c t]; [reflexivity|]. cbn [length] in *. apply IH; lia.
Qed.

(** The scan never runs out of fuel: [findall_blocks] obeys the equation of
    the unbounded scan. *)
Lemma findall_blocks_unfold (term s : str) :
  findall_blocks term s =
  match match_block term s with
  | Some (g, rest) => g :: findall_blocks term rest
  | None =>
      match s with
      | [] => []
      | _ :: t => findall_blocks term t
      end
  end.
Proof.
  destruct (match_block term s) as [[g rest]|] eqn:E.
  - unfold findall_blocks at 1. cbn [findall_from]. rewrite E.
    apply match_block_shorter in E. f_equal. apply findall_from_fuel; lia.
  - unfold findall_blocks at 1. cbn [findall_from]. rewrite E.
    destruct s as [|c t]; [reflexivity|]. apply findall_from_fuel; cbn; lia.
Qed.

Lemma match_block_other (term : str) (c : N) (t : str) :
  c ≠ 96 -> match_block term (c :: t) = None.
Proof.
  intros H. unfold match_block. rewrite fence_chars.
  rewrite strip_prefix_head by congruence. reflexivity.
Qed.

Lemma findall_blocks_prose (term t rest : str) :
  96 ∉ t -> findall_blocks term (t ++ rest) = findall_blocks term rest.
Proof.
  induction t as [|c t IH]; [reflexivity|]. intros H.
  apply not_elem_of_cons in H as [Hc Ht].
  cbn [app]. rewrite findall_blocks_unfold, match_block_other by congruence.
  apply IH, Ht.
Qed.

(** An opening fence with one of the three accepted tags. *)
Lemma match_block_open (term : str) (g : tag) (x : str) :
  match_block term (fence ++ tag_text g ++ [10] ++ x) = lazy_group term x.
Proof.
  unfold match_block. rewrite strip_prefix_app. cbn [mbind option_bind].
  unfold opt_tag, tag_text. rewrite bash_chars, shell_chars.
  destruct g; cbn; destruct (lazy_group term x) as [[? ?]|]; reflexivity.
Qed.

Lemma findall_blocks_nothing (term s : str) :
  96 ∉ s -> findall_blocks term s = [].
Proof.
  intros H. rewrite <- (app_nil_r s), findall_blocks_prose by exact H.
  reflexivity.
Qed.




(** * Lemmas on stripping and splitting *)

Lemma lstrip_elem_of (x : N) (s : str) : x ∈ lstrip s -> x ∈ s.
Proof.
  induction s as [|c s IH]; [done|]. cbn.
  destruct (isspace c); [|done]. intros H. right. apply IH, H.
Qed.

Lemma lstrip_head (s : str) (c : N) (t : str) :
  lstrip s = c :: t -> isspace c = false.
Proof.
  induction s as [|d s IH]; [discriminate|]. cbn.
  destruct (isspace d) eqn:E; [exact IH|]. congruence.
Qed.

Lemma lstrip_whitespace (s : str) :
  Forall (fun c => isspace c = true) s -> lstrip s = [].
Proof.
  induction 1 as [|c s Hc _ IH]; [reflexivity|]. cbn. rewrite Hc. exact IH.
Qed.

Lemma strip_elem_of (x : N) (s : str) : x ∈ strip s -> x ∈ s.
Proof.
  unfold strip, rstrip. intros H.
  apply lstrip_elem_of.
  apply list_elem_of_In, in_rev, list_elem_of_In in H.
  apply lstrip_elem_of in H.
  apply list_elem_of_In, in_rev, list_elem_of_In in H. exact H.
Qed.

Lemma strip_whitespace (s : str) :
  Forall (fun c => isspace c = true) s -> strip s = [].
Proof.
  intros H. unfold strip. rewrite lstrip_whitespace by exact H. reflexivity.
Qed.

(** A stripped text is empty or ends with a character that is not white. *)
Lemma strip_end (s : str) :
  strip s = [] ∨ ∃ s' c, strip s = s' ++ [c] ∧ isspace c = false.
Proof.
  unfold strip, rstrip.
  destruct (lstrip (rev (lstrip s))) as [|c t] eqn:E; [left; reflexivity|].
  right. exists (rev t), c. split; [reflexivity|].
  eapply lstrip_head, E.
Qed.

Lemma split_on_nonempty (sep : N) (s : str) : split_on sep s ≠ [].
Proof.
  destruct s as [|c s]; [done|]. cbn.
  destruct (c =? sep); [done|]. destruct (split_on sep s); done.
Qed.

Lemma split_on_plain (sep : N) (s : str) : sep ∉ s -> split_on sep s = [s].
Proof.
  induction s as [|c s IH]; [reflexivity|]. intros H.
  apply not_elem_of_cons in H as [Hc Hs]. cbn.
  destruct (N.eqb_spec c sep) as [->|_]; [done|].
  rewrite IH by exact Hs. reflexivity.
Qed.

(** The last piece of a text that does not end with the separator ends
    with the last character of the text. *)
Lemma split_on_snoc (sep c : N) (s : str) :
  c ≠ sep -> ∃ l, last (split_on sep (s ++ [c])) = Some (l ++ [c]).
Proof.
  intros Hc. induction s as [|a s [l IH]].
  - exists []. cbn. destruct (N.eqb_spec c sep); [done|]. reflexivity.
  - cbn [app split_on]. destruct (a =? sep).
    + exists l. rewrite last_cons, IH. reflexivity.
    + destruct (split_on sep (s ++ [c])) as [|h r]; [discriminate|].
      destruct r as [|h' r].
      * cbn in IH. injection IH as ->. exists (a :: l). reflexivity.
      * exists l. rewrite last_cons_cons. rewrite last_cons_cons in IH. exact IH.
Qed.

(** After [strip], the last line is the last non-empty line. *)
Lemma last_line_of_stripped (block : str) :
  index_last (split_on 10 (strip block)) = Ok (last_nonempty_line block).
Proof.
  unfold index_last, last_nonempty_line.
  destruct (strip_end block) as [-> | (s' & c & -> & Hc)]; [reflexivity|].
  destruct (split_on_snoc 10 c s') as [l Hl].
  { intros ->. discriminate. }
  rewrite Hl. apply last_Some in Hl as [pieces ->].
  rewrite filter_app, filter_cons_True, filter_nil by (by destruct l).
  rewrite last_snoc. reflexivity.
Qed.

(** * Lemmas on the extractor *)

Example py_reads_escapes :
  py "a\nb\x22c\\" = [97; 10; 98; 34; 99; 92] ∧ py "```" = [96; 96; 96].
Proof. split; reflexivity. Qed.

(** On a text response [extract_command] returns what
    [extract_command_value] computes; the verbose report only prints. *)
Lemma extract_command_outcome (g : Shellai.Globals) (response : str) :
  outcome (Shellai.extract_command g (JStr response))
  = Shellai.extract_command_value response
  ∧ Forall (fun e => is_send_keys e = false ∧ is_network e = false)
      (trace (Shellai.extract_command g (JStr response))).
Proof.
  unfold Shellai.extract_command, outcome, trace, print, emit, lift, when.
  cbn [as_str mbind M_bind fst snd].
  destruct (verbose (Shellai.args g)); cbn [mbind M_bind mret M_ret fst snd app];
    destruct (Shellai.extract_command_value response);
    (split; [reflexivity | repeat constructor]).
Qed.


Lemma legacy_findall_render (doc : list segment) :
  Forall well_formed doc ->
  findall_blocks fence (render doc) = block_bodies doc.
Proof.
  induction 1 as [|x doc Hx _ IH]; [reflexivity|].
  unfold render. cbn [map concat]. fold (render doc).
  destruct x as [t | g body]; cbn in Hx.
  - cbn [render_segment block_bodies omap list_omap].
    rewrite findall_blocks_prose by exact Hx. exact IH.
  - destruct Hx as [Hne Hbt].
    cbn [render_segment block_bodies omap list_omap].
    rewrite findall_blocks_unfold.
    rewrite <- !app_assoc, match_block_open.
    rewrite fence_chars, lazy_group_exact by done.
    rewrite <- fence_chars. f_equal. exact IH.
Qed.

Lemma shellai_findall_single (prose : str) (g : tag) (line ending : str) :
  96 ∉ prose -> line ≠ [] -> 10 ∉ line ->
  ending = [] ∨ ending = fence ∨ ending = fence ++ [10] ->
  findall_blocks [10] (prose ++ fence ++ tag_text g ++ [10] ++ line ++ [10] ++ ending)
  = [line].
Proof.
  intros Hp Hne Hnl Hend.
  rewrite findall_blocks_prose by exact Hp.
  rewrite findall_blocks_unfold, match_block_open.
  rewrite lazy_group_exact by done. f_equal.
  destruct Hend as [-> | [-> | ->]]; reflexivity.
Qed.

Lemma whitespace_no_backtick (s : str) :
  Forall (fun c => isspace c = true) s -> 96 ∉ s.
Proof.
  intros H Hin. rewrite Forall_forall in H. specialize (H _ Hin). discriminate.
Qed.

(** Every response made of white space only ends [extract_command] with an
    [IndexError]. *)
Lemma shellai_extract_whitespace (response : str) :
  Forall (fun c => isspace c = true) response ->
  Shellai.extract_command_value response = Raise IndexError.
Proof.
  intros H. unfold Shellai.extract_command_value.
  rewrite findall_blocks_nothing by (apply whitespace_no_backtick, H).
  rewrite strip_whitespace by exact H. reflexivity.
Qed.

Lemma legacy_extract_whitespace (response : str) :
  Forall (fun c => isspace c = true) response ->
  Legacy.extract_command_value response = Raise IndexError.
Proof.
  intros H. unfold Legacy.extract_command_value.
  rewrite findall_blocks_nothing by (apply whitespace_no_backtick, H).
  rewrite strip_whitespace by exact H. reflexivity.
Qed.

(** * Properties of extraction and escaping *)

(** ** Extraction: the last block *)

(** C1, as stated, fails: the tag of the opening fence is matched exactly.
    With the tag in upper case neither script finds a code block; both fall
    back to the last line of the whole response, the closing fence, and not
    the last non-empty line [ls -la] of the block. *)
Lemma extract_uppercase_tag :
  Shellai.extract_command_value (py "```BASH\nls -la\n```") = Ok (py "```")
  ∧ Legacy.extract_command_value (py "```BASH\nls -la\n```")
    = Ok (py "```", py "```BASH\nls -la")
  ∧ last_nonempty_line (py "ls -la\n") = py "ls -la"
  ∧ py "```" ≠ py "ls -la".
Proof. repeat split; try reflexivity. discriminate. Qed.

(** C1, amended.  Fence tags are matched exactly ([bash], [shell] or none).
    [shellAI.py]: for every response made of backtick-free prose and fenced
    blocks with non-empty backtick-free bodies, however many, the extracted
    command is the last non-empty line of the last block.
    [shellai.py]: for a response made of backtick-free prose and then one
    fenced block holding one command line, closed or not, the extracted
    command is that line, stripped, which is its last non-empty line. *)
Theorem extract_last_block :
  (∀ (doc : list segment) (b : str),
     Forall well_formed doc ->
     last (block_bodies doc) = Some b ->
     Legacy.extract_command_value (render doc)
     = Ok (last_nonempty_line b, render doc))
  ∧ (∀ (prose : str) (g : tag) (line ending : str),
       96 ∉ prose -> line ≠ [] -> 10 ∉ line ->
       ending = [] ∨ ending = fence ∨ ending = fence ++ [10] ->
       Shellai.extract_command_value
         (prose ++ fence ++ tag_text g ++ [10] ++ line ++ [10] ++ ending)
       = Ok (strip line)
       ∧ strip line = last_nonempty_line line).
Proof.
  split.
  - intros doc b Hwf Hlast. unfold Legacy.extract_command_value.
    rewrite legacy_findall_render by exact Hwf.
    destruct (block_bodies doc) as [|b0 bs] eqn:E; [discriminate|].
    pose proof (last_line_of_stripped b) as Hline.
    unfold index_last in *. rewrite Hlast. cbn [mbind result_bind].
    rewrite Hline. reflexivity.
  - intros prose g line ending Hp Hne Hnl Hend.
    assert (Hs : index_last (split_on 10 (strip line)) = Ok (strip line)).
    { rewrite split_on_plain; [reflexivity|].
      intros H. apply Hnl, strip_elem_of, H. }
    split.
    + unfold Shellai.extract_command_value.
      rewrite shellai_findall_single by assumption. exact Hs.
    + rewrite last_line_of_stripped in Hs. congruence.
Qed.

Lemma extract_last_block_witness :
  Legacy.extract_command_value (render two_block_response)
  = Ok (py "echo final", render two_block_response)
  ∧ Shellai.extract_command_value (py "Use ls.\n```bash\nls -la\n```")
    = Ok (py "ls -la").
Proof.
  split.
  - apply (proj1 extract_last_block two_block_response (py "echo bye\necho final\n")).
    + repeat constructor; try discriminate;
        refine (bool_decide_unpack _ _); vm_compute; exact I.
    + reflexivity.
  - apply (proj1 (proj2 extract_last_block (py "Use ls.\n") Bash (py "ls -la") fence
                   ltac:(refine (bool_decide_unpack _ _); vm_compute; exact I)
                   ltac:(discriminate)
                   ltac:(refine (bool_decide_unpack _ _); vm_compute; exact I)
                   ltac:(right; left; reflexivity))).
Defined.

(** What [shellai.py] does with the same two blocks: its pattern ends the
    group at the first line feed, and takes a closing fence followed by a
    line feed for an opening one. *)
Example shellai_extract_two_blocks :
  findall_blocks [10] (render two_block_response)
  = [py "echo hi"; py "and then"; py "echo bye"]
  ∧ Shellai.extract_command_value (render two_block_response) = Ok (py "echo bye")
  ∧ Shellai.extract_command_value
      (py "```bash\necho hi\n```\n\n```bash\necho bye\n```") = Ok (py "```bash").
Proof. repeat split; reflexivity. Qed.

(** ** Extraction: the empty response *)

(** C2 fails on the code: without a code block both scripts evaluate
    [response.strip().splitlines()[-1]]; for the empty response and for a
    response of white space the list is empty and the index raises. *)
Theorem extract_empty_raises :
  Shellai.extract_command_value [] = Raise IndexError
  ∧ Shellai.extract_command_value (py " \n\t ") = Raise IndexError
  ∧ Legacy.extract_command_value [] = Raise IndexError
  ∧ Legacy.extract_command_value (py " \n\t ") = Raise IndexError.
Proof. repeat split; reflexivity. Qed.

(** ** The sanitizer *)

(** C3: for every input, the output of [clean_command] is well escaped (no
    double quote, dollar sign, backtick or backslash outside an escape
    pair, no line feed), and it is the character-by-character image of the
    input under the fixed table; in [shellai.py] a line feed becomes a
    space, in [shellAI.py] it disappears. *)
Theorem clean_command_escapes (c : str) :
  (well_escaped (Shellai.clean_command c) = true
   ∧ Shellai.clean_command c = concat (map (rewrite_char [32]) c))
  ∧ (well_escaped (Legacy.clean_command c) = true
     ∧ Legacy.clean_command c = concat (map (rewrite_char []) c)).
Proof.
  repeat split.
  - rewrite shellai_clean_command_table. apply rewrite_well_escaped. by left.
  - apply shellai_clean_command_table.
  - rewrite legacy_clean_command_table. apply rewrite_well_escaped. by right.
  - apply legacy_clean_command_table.
Qed.

Example clean_command_echo_home :
  Shellai.clean_command (py "echo \x22$HOME\x22") = py "echo \\\x22\\$HOME\\\x22"
  ∧ Shellai.clean_command (py "a\nb`c\\") = py "a b\\`c\\\\"
  ∧ Legacy.clean_command (py "a\nb`c\\") = py "ab\\`c\\\\".
Proof. repeat split; reflexivity. Qed.

(** C9: the sanitizer is not idempotent.  Whenever the input holds a
    character with an escaped form (double quote, dollar sign, backtick or
    backslash), a second pass changes the result of the first, in both
    scripts; so such inputs exist. *)
Theorem clean_command_not_idempotent :
  (∃ x, Shellai.clean_command (Shellai.clean_command x) ≠ Shellai.clean_command x)
  ∧ (∃ x, Legacy.clean_command (Legacy.clean_command x) ≠ Legacy.clean_command x)
  ∧ (∀ x, existsb escaped_form x = true ->
       Shellai.clean_command (Shellai.clean_command x) ≠ Shellai.clean_command x
       ∧ Legacy.clean_command (Legacy.clean_command x) ≠ Legacy.clean_command x).
Proof.
  assert (H : ∀ x, existsb escaped_form x = true ->
       Shellai.clean_command (Shellai.clean_command x) ≠ Shellai.clean_command x
       ∧ Legacy.clean_command (Legacy.clean_command x) ≠ Legacy.clean_command x).
  { intros x Hx. split.
    - rewrite !shellai_clean_command_table.
      apply rewrite_twice_differs; [by left | exact Hx].
    - rewrite !legacy_clean_command_table.
      apply rewrite_twice_differs; [by right | exact Hx]. }
  split; [|split].
  - exists [34]. apply H. reflexivity.
  - exists [34]. apply H. reflexivity.
  - exact H.
Qed.

Lemma clean_command_not_idempotent_witness :
  existsb escaped_form (py "echo \x22$HOME\x22") = true
  ∧ Shellai.clean_command (Shellai.clean_command (py "echo \x22$HOME\x22"))
    ≠ Shellai.clean_command (py "echo \x22$HOME\x22")
  ∧ Legacy.clean_command (Legacy.clean_command (py "echo \x22$HOME\x22"))
    ≠ Legacy.clean_command (py "echo \x22$HOME\x22").
Proof.
  split; [reflexivity|].
  apply (proj2 (proj2 clean_command_not_idempotent) (py "echo \x22$HOME\x22")).
  reflexivity.
Defined.

(** * Properties of the scripts

    Lemmas on traces first. *)

Lemma bind_Ok {A B} (m : M A) (k : A -> M B) (t : list event) (a : A) :
  m = (t, Ok a) -> m ≫= k = (t ++ trace (k a), outcome (k a)).
Proof. intros ->. cbn. destruct (k a). reflexivity. Qed.

Lemma bind_Raise {A B} (m : M A) (k : A -> M B) (t : list event) (e : exn) :
  m = (t, Raise e) -> m ≫= k = (t, Raise e).
Proof. intros ->. reflexivity. Qed.

Lemma Forall_trace_bind {A B} (P : event -> Prop) (m : M A) (k : A -> M B) :
  Forall P (trace m) -> (∀ a, Forall P (trace (k a))) ->
  Forall P (trace (m ≫= k)).
Proof.
  destruct m as [t [a|e]]; cbn; intros Hm Hk; [|exact Hm].
  specialize (Hk a). destruct (k a) as [t' r]. cbn in *.
  apply Forall_app. split; assumption.
Qed.

Lemma Forall_trace_try {A} (P : event -> Prop) (m h : M A) (c : exn -> bool) :
  Forall P (trace m) -> Forall P (trace h) -> Forall P (trace (try_except m c h)).
Proof.
  destruct m as [t [a|e]]; cbn; intros Hm Hh; [exact Hm|].
  destruct (c e); [|exact Hm]. destruct h as [t' r]. cbn in *.
  apply Forall_app. split; assumption.
Qed.

Lemma Forall_trace_when (P : event -> Prop) (b : bool) (m : M unit) :
  Forall P (trace m) -> Forall P (trace (when b m)).
Proof. destruct b; [trivial|]. intros _. apply Forall_nil_2. Qed.

Lemma Forall_trace_lift {A} (P : event -> Prop) (r : result A) :
  Forall P (trace (lift r)).
Proof. apply Forall_nil_2. Qed.

Lemma Forall_trace_ret {A} (P : event -> Prop) (a : A) :
  Forall P (trace (mret a : M A)).
Proof. apply Forall_nil_2. Qed.

Lemma Forall_trace_raise {A} (P : event -> Prop) (e : exn) :
  Forall P (trace (raise e : M A)).
Proof. apply Forall_nil_2. Qed.

Lemma Forall_trace_emit (P : event -> Prop) (e : event) :
  P e -> Forall P (trace (emit e)).
Proof. intros H. apply Forall_singleton, H. Qed.

Lemma Forall_trace_print (P : event -> Prop) (s : str) :
  P (Print (s ++ [10])) -> Forall P (trace (print s)).
Proof. apply Forall_trace_emit. Qed.

Lemma Forall_trace_print_value (P : event -> Prop) (v : json) :
  (∀ s, P (Print s)) -> P (PrintValue v) -> Forall P (trace (print_value v)).
Proof. intros H1 H2. destruct v; apply Forall_trace_emit; auto. Qed.

(** Walks through a computation, leaving one goal for each kind of event
    it can perform. *)
Ltac walk :=
  repeat first
    [ apply Forall_trace_ret
    | apply Forall_trace_lift
    | apply Forall_trace_raise
    | apply Forall_trace_when
    | apply Forall_trace_print
    | apply Forall_trace_print_value; [intros ?|]
    | apply Forall_trace_emit
    | apply Forall_trace_try
    | apply Forall_trace_bind; [|intros ?]
    | match goal with
      | |- Forall _ (trace (if ?b then _ else _)) => destruct b
      | |- Forall _ (trace (match ?x with _ => _ end)) => destruct x
      end ].

Lemma no_run_no_send_keys (t : list event) :
  Forall no_run t -> Forall (fun e => is_send_keys e = false) t.
Proof. intros Ht. eapply Forall_impl; [exact Ht|]. intros [] H; done. Qed.

Lemma local_only_no_network (t : list event) :
  Forall local_only t -> Forall (fun e => is_network e = false) t.
Proof. intros Ht. eapply Forall_impl; [exact Ht|]. intros e [H _]. exact H. Qed.

Lemma local_only_no_send_keys (t : list event) :
  Forall local_only t -> Forall (fun e => is_send_keys e = false) t.
Proof. intros Ht. eapply Forall_impl; [exact Ht|]. intros e [_ H]. exact H. Qed.


Lemma select_input_local (w : World) (a : Args) (d : str) :
  Forall local_only (trace (Shellai.select_input w a d)).
Proof.
  unfold Shellai.select_input, Shellai.run_check_output.
  walk. split; reflexivity.
Qed.

Lemma startup_local (w : World) :
  Forall local_only (trace (Shellai.startup w)).
Proof.
  unfold Shellai.startup, Shellai.run_check_output.
  apply Forall_trace_bind; [walk; split; reflexivity|]. intros pane.
  destruct (parse_known_args w (strip pane)) as [a arg_input].
  apply Forall_trace_bind; [walk|]. intros p.
  apply Forall_trace_bind; [walk; split; reflexivity|]. intros sp.
  apply Forall_trace_bind; [apply select_input_local|]. intros input.
  walk; split; reflexivity.
Qed.

(** ** Input selection *)

(** C10: with standard input on a terminal, both scripts run
    [tmux capture-pane] when TMUX is unset and when it is set to a
    non-empty value, and skip the capture exactly when TMUX is set to the
    empty text. *)
Theorem capture_unless_TMUX_empty (w : World) (a : Args) (d : str) :
  stdin_isatty w = true ->
  (environ w !! py "TMUX" = None
   ∨ (∃ v : str, environ w !! py "TMUX" = Some v ∧ v ≠ []) ->
   trace (Shellai.select_input w a d)
   = [Run (py "tmux capture-pane -p -t " ++ target a ++ py " -S -"
           ++ str_of_Z (scrollback a))]
   ∧ trace (Legacy.select_input w) = [Run (py "tmux capture-pane -pS -1000")])
  ∧ (environ w !! py "TMUX" = Some [] ->
     Shellai.select_input w a d = ([], Ok [])
     ∧ Legacy.select_input w = ([], Ok [])).
Proof.
  intros Htty. unfold Shellai.select_input, Legacy.select_input,
    Shellai.run_check_output, getenv_differs.
  rewrite Htty. cbn [negb]. split.
  - intros Henv.
    assert (Hne : environ w !! py "TMUX" = Some [] -> False).
    { intros Heq. destruct Henv as [H | (v & H & Hv)];
        pose proof (eq_trans (eq_sym H) Heq) as Hv'; [discriminate|].
      injection Hv' as Hv'. exact (Hv Hv'). }
    split.
    + case_bool_decide as Heq; [destruct (Hne Heq)|]. cbn [negb].
      destruct (check_output w _) as [out|e]; [|reflexivity].
      destruct (bool_decide (target a = d)); reflexivity.
    + case_bool_decide as Heq; [destruct (Hne Heq)|]. cbn [negb].
      destruct (check_output w _) as [out|e]; reflexivity.
  - intros Henv. split.
    + case_bool_decide as Heq; [reflexivity|]. destruct (Heq Henv).
    + case_bool_decide as Heq; [reflexivity|]. destruct (Heq Henv).
Qed.

Lemma capture_unless_TMUX_empty_witness :
  trace (Shellai.select_input
           (sample_world ∅ sample_args server_error (Ok tt))
           (sample_args (py "main:0.0")) (py "main:0.0"))
  = [Run (py "tmux capture-pane -p -t main:0.0 -S -0")]
  ∧ trace (Legacy.select_input (sample_world tmux_env sample_args server_error (Ok tt)))
    = [Run (py "tmux capture-pane -pS -1000")]
  ∧ Shellai.select_input
      (sample_world {[ py "TMUX" := [] ]} sample_args server_error (Ok tt))
      (sample_args (py "main:0.0")) (py "main:0.0")
    = ([], Ok []).
Proof.
  split; [|split].
  - pose proof (capture_unless_TMUX_empty
                  (sample_world ∅ sample_args server_error (Ok tt))
                  (sample_args (py "main:0.0")) (py "main:0.0") eq_refl) as [H _].
    destruct H as [H _]; [left; vm_compute; reflexivity|].
    rewrite H. vm_compute. reflexivity.
  - pose proof (capture_unless_TMUX_empty
                  (sample_world tmux_env sample_args server_error (Ok tt))
                  (sample_args (py "main:0.0")) (py "main:0.0") eq_refl) as [H _].
    destruct H as [_ H]; [|exact H].
    right. exists (py "/tmp/tmux-1000/default,4242,0").
    split; [vm_compute; reflexivity|discriminate].
  - apply (proj2 (capture_unless_TMUX_empty
                    (sample_world {[ py "TMUX" := [] ]} sample_args server_error (Ok tt))
                    (sample_args (py "main:0.0")) (py "main:0.0") eq_refl)).
    vm_compute. reflexivity.
Defined.

(** ** The credential *)

Lemma shellai_get_key_missing (w : World) (p : Shellai.Provider) :
  environ w !! Shellai.api_key_var p = None ->
  Shellai.get_key w p
  = ([Print ((py "need " ++ Shellai.api_key_var p ++ py " environment variable")
             ++ [10])],
     Raise SystemExit).
Proof.
  intros H. unfold Shellai.get_key, Shellai.dict_item. rewrite H. reflexivity.
Qed.

Lemma shellai_get_key_present (w : World) (p : Shellai.Provider) (key : str) :
  environ w !! Shellai.api_key_var p = Some key ->
  Shellai.get_key w p = ([], Ok key).
Proof.
  intros H. unfold Shellai.get_key, Shellai.dict_item. rewrite H. reflexivity.
Qed.

Lemma shellai_script_missing_key (w : World) (st : Shellai.Startup) (tr : list event) :
  Shellai.startup w = (tr, Ok st) ->
  environ w !! Shellai.api_key_var (Shellai.st_provider st) = None ->
  Shellai.script w
  = (tr ++ [Print ((py "need " ++ Shellai.api_key_var (Shellai.st_provider st)
                    ++ py " environment variable") ++ [10])],
     Raise SystemExit).
Proof.
  intros Hst Hkey. unfold Shellai.script.
  rewrite (bind_Ok _ _ _ _ Hst). unfold Shellai.run_from.
  rewrite (bind_Raise _ _ _ _ (shellai_get_key_missing w _ Hkey)).
  reflexivity.
Qed.

Lemma legacy_get_key_missing (w : World) :
  environ w !! py "GEMINI_API_KEY" = None ->
  Legacy.get_key w
  = ([Print (py "need GEMINI_API_KEY environment variable" ++ [10])],
     Raise SystemExit).
Proof.
  intros H. unfold Legacy.get_key, Shellai.dict_item. rewrite H. reflexivity.
Qed.

Lemma legacy_script_missing_key (w : World) (info : str) :
  gemini_installed w = true ->
  check_output w (py "hostnamectl") = Ok info ->
  environ w !! py "GEMINI_API_KEY" = None ->
  ∃ tr, Legacy.script w
        = (tr ++ [Run (py "hostnamectl");
                  Print (py "need GEMINI_API_KEY environment variable" ++ [10])],
           Raise SystemExit)
        ∧ Forall (fun e => is_network e = false) tr.
Proof.
  intros Hinst Hhost Hkey. unfold Legacy.script.
  rewrite Hinst, Hhost, (legacy_get_key_missing w Hkey).
  destruct (legacy_parse_known_args w) as [f arg_input].
  destruct (l_verbose f).
  - eexists. split; [reflexivity|]. repeat constructor.
  - exists []. split; [reflexivity|]. constructor.
Qed.

(** C4: when the environment variable that holds the credential of the
    provider is absent, the script prints [need VAR environment variable]
    with the exact name and ends by [quit()]; up to that point no network
    call has been made.  In [shellai.py] this holds once the start of the
    script (pane name, arguments, provider, input text) has succeeded; in
    [shellAI.py] once the module and [hostnamectl] are available. *)
Theorem missing_credential_reported (w : World) :
  (∀ (st : Shellai.Startup) (tr : list event),
     Shellai.startup w = (tr, Ok st) ->
     environ w !! Shellai.api_key_var (Shellai.st_provider st) = None ->
     Shellai.script w
     = (tr ++ [Print ((py "need " ++ Shellai.api_key_var (Shellai.st_provider st)
                       ++ py " environment variable") ++ [10])],
        Raise SystemExit)
     ∧ Forall (fun e => is_network e = false) (trace (Shellai.script w)))
  ∧ (∀ info : str,
       gemini_installed w = true ->
       check_output w (py "hostnamectl") = Ok info ->
       environ w !! py "GEMINI_API_KEY" = None ->
       ∃ tr, Legacy.script w
             = (tr ++ [Run (py "hostnamectl");
                       Print (py "need GEMINI_API_KEY environment variable" ++ [10])],
                Raise SystemExit)
             ∧ Forall (fun e => is_network e = false) (trace (Legacy.script w))).
Proof.
  split.
  - intros st tr Hst Hkey.
    pose proof (shellai_script_missing_key w st tr Hst Hkey) as Hs.
    split; [exact Hs|]. rewrite Hs. unfold trace. cbn [fst].
    apply Forall_app. split; [|repeat constructor].
    apply local_only_no_network.
    pose proof (startup_local w) as Hl. rewrite Hst in Hl. exact Hl.
  - intros info Hinst Hhost Hkey.
    destruct (legacy_script_missing_key w info Hinst Hhost Hkey) as (tr & Hs & Hn).
    exists tr. split; [exact Hs|]. rewrite Hs. unfold trace. cbn [fst].
    apply Forall_app. split; [exact Hn|repeat constructor].
Qed.

Lemma missing_credential_reported_witness :
  Shellai.script (sample_world tmux_env sample_args server_error (Ok tt))
  = ([Run (py "tmux display-message -p '#S:#I.#P'");
      Run (py "tmux capture-pane -p -t main:0.0 -S -0");
      Print (py "need OPENROUTER_API_KEY environment variable\n")],
     Raise SystemExit)
  ∧ ∃ tr, Legacy.script (sample_world tmux_env sample_args server_error (Ok tt))
          = (tr ++ [Run (py "hostnamectl");
                    Print (py "need GEMINI_API_KEY environment variable" ++ [10])],
             Raise SystemExit).
Proof.
  pose proof (missing_credential_reported
                (sample_world tmux_env sample_args server_error (Ok tt))) as [H1 H2].
  split.
  - destruct (Shellai.startup (sample_world tmux_env sample_args server_error (Ok tt)))
      as [tr [st|e]] eqn:E; vm_compute in E; [|discriminate].
    injection E as <- <-.
    destruct (H1 _ _ eq_refl) as [Hs _]; [vm_compute; reflexivity|].
    rewrite Hs. vm_compute. reflexivity.
  - assert (Hhost : check_output (sample_world tmux_env sample_args server_error (Ok tt))
                      (py "hostnamectl") = Ok (py "Static hostname: box\n"))
      by (vm_compute; reflexivity).
    assert (Hkey : environ (sample_world tmux_env sample_args server_error (Ok tt))
                   !! py "GEMINI_API_KEY" = None)
      by (vm_compute; reflexivity).
    destruct (H2 _ eq_refl Hhost Hkey) as (tr & Hs & _).
    exists tr. exact Hs.
Defined.

(** ** Provider errors *)

Lemma main_fetch_raises (w : World) (g : Shellai.Globals) (prompt sp : str)
    (t : list event) (e : exn) :
  Shellai.fetch_response w g prompt sp = (t, Raise e) ->
  Shellai.main w g prompt sp = (t, Raise e).
Proof.
  intros H. unfold Shellai.main, Shellai.get_response.
  rewrite (bind_Raise _ _ _ _ H). reflexivity.
Qed.

Lemma fetch_http_error (w : World) (g : Shellai.Globals) (prompt sp : str)
    (r : http_response) :
  debug (Shellai.args g) = false ->
  Shellai.provider_wrapper (Shellai.provider g) = Shellai.get_response_default_w ->
  requests_post w (Shellai.url (Shellai.provider g)) (Shellai.api_key g)
                (model (Shellai.args g)) sp prompt = Ok r ->
  status_code r ≠ 200%Z ->
  Shellai.fetch_response w g prompt sp
  = (announce g ++ [request g prompt sp;
                    Print ((py "Error: " ++ str_of_Z (status_code r)) ++ [10]);
                    Print (text r ++ [10])],
     Raise SystemExit).
Proof.
  intros Hdebug Hwrap Hpost Hstatus.
  unfold Shellai.fetch_response, Shellai.call_wrapper,
    Shellai.get_response_default, announce, request.
  rewrite Hdebug, Hwrap, Hpost. apply Z.eqb_neq in Hstatus.
  destruct (verbose (Shellai.args g)); cbn [when mbind M_bind lift print emit];
    rewrite Hstatus; reflexivity.
Qed.

Lemma fetch_missing_key (w : World) (g : Shellai.Globals) (prompt sp : str)
    (r : http_response) (data : json) :
  debug (Shellai.args g) = false ->
  Shellai.provider_wrapper (Shellai.provider g) = Shellai.get_response_default_w ->
  requests_post w (Shellai.url (Shellai.provider g)) (Shellai.api_key g)
                (model (Shellai.args g)) sp prompt = Ok r ->
  status_code r = 200%Z ->
  json_body r = Ok data ->
  Shellai.message_content data = Raise KeyError ->
  Shellai.fetch_response w g prompt sp
  = (announce g ++ [request g prompt sp; Print (py "unexpected output" ++ [10])]
     ++ trace (print_value data),
     Raise SystemExit).
Proof.
  intros Hdebug Hwrap Hpost Hstatus Hjson Hkey.
  unfold Shellai.fetch_response, Shellai.call_wrapper,
    Shellai.get_response_default, announce, request.
  rewrite Hdebug, Hwrap, Hpost.
  destruct (verbose (Shellai.args g)); cbn [when mbind M_bind lift print emit];
    rewrite Hstatus, Hjson; cbn [mbind M_bind lift Z.eqb Pos.eqb];
    rewrite Hkey; destruct data; reflexivity.
Qed.

Lemma shellai_script_main (w : World) (st : Shellai.Startup) (tr : list event)
    (key : str) :
  Shellai.startup w = (tr, Ok st) ->
  environ w !! Shellai.api_key_var (Shellai.st_provider st) = Some key ->
  file (Shellai.st_args st) = None ->
  join [32] (Shellai.st_arg_input st) ++ Shellai.st_input_string st ≠ [] ->
  Shellai.script w
  = (tr ++ trace (Shellai.main w (globals_at st key) (prompt_at st)
                               (Shellai.st_system_prompt st)),
     outcome (Shellai.main w (globals_at st key) (prompt_at st)
                           (Shellai.st_system_prompt st))).
Proof.
  intros Hst Hkey Hfile Hinput. unfold Shellai.script.
  rewrite (bind_Ok _ _ _ _ Hst). unfold Shellai.run_from.
  rewrite (bind_Ok _ _ _ _ (shellai_get_key_present w _ key Hkey)).
  rewrite Hfile. unfold globals_at, prompt_at.
  assert (Hp : match Shellai.st_arg_input st with
               | [] => []
               | _ :: _ => join [32] (Shellai.st_arg_input st)
               end = join [32] (Shellai.st_arg_input st)).
  { destruct (Shellai.st_arg_input st); reflexivity. }
  rewrite Hp. cbn [mbind M_bind mret M_ret trace outcome fst snd app].
  destruct (join [32] (Shellai.st_arg_input st) ++ Shellai.st_input_string st)
    as [|c rest] eqn:E; [done|].
  destruct (Shellai.main _ _ _ _) as [t r]. reflexivity.
Qed.

Lemma main_http_error (w : World) (g : Shellai.Globals) (prompt sp : str)
    (r : http_response) :
  debug (Shellai.args g) = false ->
  Shellai.provider_wrapper (Shellai.provider g) = Shellai.get_response_default_w ->
  requests_post w (Shellai.url (Shellai.provider g)) (Shellai.api_key g)
                (model (Shellai.args g)) sp prompt = Ok r ->
  status_code r ≠ 200%Z ->
  Shellai.main w g prompt sp
  = (announce g ++ [request g prompt sp;
                    Print ((py "Error: " ++ str_of_Z (status_code r)) ++ [10]);
                    Print (text r ++ [10])],
     Raise SystemExit).
Proof.
  intros Hdebug Hwrap Hpost Hstatus.
  apply main_fetch_raises, fetch_http_error; assumption.
Qed.

Lemma announce_no_send_keys (g : Shellai.Globals) (t : list event) :
  Forall (fun e => is_send_keys e = false) t ->
  Forall (fun e => is_send_keys e = false) (announce g ++ t).
Proof.
  intros H. apply Forall_app. split; [|exact H].
  unfold announce. destruct (verbose (Shellai.args g)); repeat constructor.
Qed.

(** C5, as stated, fails: in each of the three situations the script ends
    through [quit()], that is [SystemExit(None)], and the exit status of the
    process is 0. *)
Lemma quit_exit_status_zero :
  (outcome (Shellai.script (sample_world tmux_env sample_args server_error (Ok tt)))
   = Raise SystemExit
   ∧ exit_status
       (outcome (Shellai.script (sample_world tmux_env sample_args server_error (Ok tt))))
     = 0%Z)
  ∧ (Shellai.script (sample_world keyed_env sample_args server_error (Ok tt))
     = ([Run (py "tmux display-message -p '#S:#I.#P'");
         Run (py "tmux capture-pane -p -t main:0.0 -S -0");
         HttpPost (py "https://openrouter.ai/api/v1/chat/completions") (py "sk-test")
                  (Some (py "nousresearch/hermes-3-llama-3.1-405b:free"))
                  (Shellai.default_system_prompt ++ py "user os: Debian GNU/Linux")
                  (py "list files:\n$ ls");
         Print (py "Error: 500\n");
         Print (py "Internal Server Error\n")],
        Raise SystemExit)
     ∧ exit_status
         (outcome (Shellai.script (sample_world keyed_env sample_args server_error (Ok tt))))
       = 0%Z)
  ∧ (outcome (Shellai.script (sample_world keyed_env sample_args missing_choices (Ok tt)))
     = Raise SystemExit
     ∧ exit_status
         (outcome (Shellai.script (sample_world keyed_env sample_args missing_choices (Ok tt))))
       = 0%Z)
  ∧ exit_status
      (outcome (Legacy.script (sample_world tmux_env sample_args server_error (Ok tt))))
    = 0%Z.
Proof. conjuncts; vm_compute; reflexivity. Qed.

(** C5, amended: on a missing credential, on a provider status other than
    200 and on a provider answer that lacks one of the keys [choices],
    [message], [content], the script prints its diagnostic and ends through
    [quit()]; the exit status of the process is then 0. *)
Theorem diagnostic_then_quit (w : World) :
  (∀ (st : Shellai.Startup) (tr : list event),
     Shellai.startup w = (tr, Ok st) ->
     environ w !! Shellai.api_key_var (Shellai.st_provider st) = None ->
     last (trace (Shellai.script w))
     = Some (Print ((py "need " ++ Shellai.api_key_var (Shellai.st_provider st)
                     ++ py " environment variable") ++ [10]))
     ∧ outcome (Shellai.script w) = Raise SystemExit
     ∧ exit_status (outcome (Shellai.script w)) = 0%Z)
  ∧ (∀ info : str,
       gemini_installed w = true ->
       check_output w (py "hostnamectl") = Ok info ->
       environ w !! py "GEMINI_API_KEY" = None ->
       last (trace (Legacy.script w))
       = Some (Print (py "need GEMINI_API_KEY environment variable" ++ [10]))
       ∧ outcome (Legacy.script w) = Raise SystemExit
       ∧ exit_status (outcome (Legacy.script w)) = 0%Z)
  ∧ (∀ (g : Shellai.Globals) (prompt sp : str) (r : http_response),
       debug (Shellai.args g) = false ->
       Shellai.provider_wrapper (Shellai.provider g) = Shellai.get_response_default_w ->
       requests_post w (Shellai.url (Shellai.provider g)) (Shellai.api_key g)
                     (model (Shellai.args g)) sp prompt = Ok r ->
       (status_code r ≠ 200%Z ->
        Shellai.main w g prompt sp
        = (announce g ++ [request g prompt sp;
                          Print ((py "Error: " ++ str_of_Z (status_code r)) ++ [10]);
                          Print (text r ++ [10])],
           Raise SystemExit)
        ∧ exit_status (outcome (Shellai.main w g prompt sp)) = 0%Z)
       ∧ (∀ data : json,
            status_code r = 200%Z ->
            json_body r = Ok data ->
            Shellai.message_content data = Raise KeyError ->
            Shellai.main w g prompt sp
            = (announce g
               ++ [request g prompt sp; Print (py "unexpected output" ++ [10])]
               ++ trace (print_value data),
               Raise SystemExit)
            ∧ exit_status (outcome (Shellai.main w g prompt sp)) = 0%Z)).
Proof.
  split; [|split].
  - intros st tr Hst Hkey.
    rewrite (shellai_script_missing_key w st tr Hst Hkey).
    unfold trace, outcome. cbn [fst snd]. rewrite last_snoc. done.
  - intros info Hinst Hhost Hkey.
    destruct (legacy_script_missing_key w info Hinst Hhost Hkey) as (tr & -> & _).
    unfold trace, outcome. cbn [fst snd].
    change [Run (py "hostnamectl");
            Print (py "need GEMINI_API_KEY environment variable" ++ [10])]
      with ([Run (py "hostnamectl")]
            ++ [Print (py "need GEMINI_API_KEY environment variable" ++ [10])]).
    rewrite app_assoc, last_snoc. done.
  - intros g prompt sp r Hdebug Hwrap Hpost. split.
    + intros Hstatus.
      rewrite (main_http_error w g prompt sp r Hdebug Hwrap Hpost Hstatus). done.
    + intros data Hstatus Hjson Hkey.
      rewrite (main_fetch_raises w g prompt sp _ _
                 (fetch_missing_key w g prompt sp r data
                    Hdebug Hwrap Hpost Hstatus Hjson Hkey)).
      done.
Qed.

Lemma diagnostic_then_quit_witness :
  exit_status
    (outcome (Shellai.script (sample_world tmux_env sample_args server_error (Ok tt))))
  = 0%Z
  ∧ exit_status
      (outcome (Shellai.main (sample_world keyed_env sample_args server_error (Ok tt))
                  (sample_globals (sample_args (py "main:0.0")))
                  (py "list files:\n$ ls") (py "system")))
    = 0%Z
  ∧ exit_status
      (outcome (Shellai.main (sample_world keyed_env sample_args missing_choices (Ok tt))
                  (sample_globals (sample_args (py "main:0.0")))
                  (py "list files:\n$ ls") (py "system")))
    = 0%Z.
Proof.
  split; [|split].
  - pose proof (diagnostic_then_quit
                  (sample_world tmux_env sample_args server_error (Ok tt))) as [H _].
    destruct (Shellai.startup (sample_world tmux_env sample_args server_error (Ok tt)))
      as [tr [st|e]] eqn:E; vm_compute in E; [|discriminate].
    injection E as <- <-.
    destruct (H _ _ eq_refl) as (_ & _ & Hs); [vm_compute; reflexivity|].
    exact Hs.
  - pose proof (diagnostic_then_quit
                  (sample_world keyed_env sample_args server_error (Ok tt)))
      as (_ & _ & H).
    destruct (H (sample_globals (sample_args (py "main:0.0")))
                (py "list files:\n$ ls") (py "system")
                (sample_response 500 (py "Internal Server Error") (Raise ValueError))
                eq_refl eq_refl eq_refl) as [H500 _].
    destruct H500 as [_ Hs]; [discriminate|]. exact Hs.
  - pose proof (diagnostic_then_quit
                  (sample_world keyed_env sample_args missing_choices (Ok tt)))
      as (_ & _ & H).
    destruct (H (sample_globals (sample_args (py "main:0.0")))
                (py "list files:\n$ ls") (py "system")
                (sample_response 200 (py "{}") (Ok (JDict [])))
                eq_refl eq_refl eq_refl) as [_ H200].
    destruct (H200 (JDict []) eq_refl eq_refl) as [_ Hs];
      [vm_compute; reflexivity|].
    exact Hs.
Defined.

(** ** A provider error never reaches the pane *)

(** C6: when [get_response_default] receives a status other than 200,
    [main] prints the status and the body of the answer and ends through
    [quit()] without a [tmux send-keys] call; and in the whole script,
    whose earlier steps only read the pane, nothing is injected either. *)
Theorem http_error_no_injection (w : World) :
  (∀ (g : Shellai.Globals) (prompt sp : str) (r : http_response),
     debug (Shellai.args g) = false ->
     Shellai.provider_wrapper (Shellai.provider g) = Shellai.get_response_default_w ->
     requests_post w (Shellai.url (Shellai.provider g)) (Shellai.api_key g)
                   (model (Shellai.args g)) sp prompt = Ok r ->
     status_code r ≠ 200%Z ->
     Shellai.main w g prompt sp
     = (announce g ++ [request g prompt sp;
                       Print ((py "Error: " ++ str_of_Z (status_code r)) ++ [10]);
                       Print (text r ++ [10])],
        Raise SystemExit)
     ∧ Forall (fun e => is_send_keys e = false) (trace (Shellai.main w g prompt sp)))
  ∧ (∀ (st : Shellai.Startup) (tr : list event) (key : str) (r : http_response),
       Shellai.startup w = (tr, Ok st) ->
       environ w !! Shellai.api_key_var (Shellai.st_provider st) = Some key ->
       file (Shellai.st_args st) = None ->
       join [32] (Shellai.st_arg_input st) ++ Shellai.st_input_string st ≠ [] ->
       debug (Shellai.st_args st) = false ->
       Shellai.provider_wrapper (Shellai.st_provider st) = Shellai.get_response_default_w ->
       requests_post w (Shellai.url (Shellai.st_provider st)) key
                     (model (Shellai.st_args st)) (Shellai.st_system_prompt st)
                     (prompt_at st) = Ok r ->
       status_code r ≠ 200%Z ->
       outcome (Shellai.script w) = Raise SystemExit
       ∧ Print ((py "Error: " ++ str_of_Z (status_code r)) ++ [10])
         ∈ trace (Shellai.script w)
       ∧ Print (text r ++ [10]) ∈ trace (Shellai.script w)
       ∧ Forall (fun e => is_send_keys e = false) (trace (Shellai.script w))).
Proof.
  split.
  - intros g prompt sp r Hdebug Hwrap Hpost Hstatus.
    pose proof (main_http_error w g prompt sp r Hdebug Hwrap Hpost Hstatus) as Hm.
    split; [exact Hm|]. rewrite Hm. unfold trace. cbn [fst].
    apply announce_no_send_keys. repeat constructor.
  - intros st tr key r Hst Hkey Hfile Hinput Hdebug Hwrap Hpost Hstatus.
    rewrite (shellai_script_main w st tr key Hst Hkey Hfile Hinput).
    rewrite (main_http_error w (globals_at st key) (prompt_at st)
               (Shellai.st_system_prompt st) r Hdebug Hwrap Hpost Hstatus).
    unfold trace, outcome. cbn [fst snd].
    split; [reflexivity|]. split; [|split].
    + rewrite !elem_of_app. right. right. right. left.
    + rewrite !elem_of_app. right. right. right. right. left.
    + apply Forall_app. split.
      * apply local_only_no_send_keys.
        pose proof (startup_local w) as Hl. rewrite Hst in Hl. exact Hl.
      * apply announce_no_send_keys. repeat constructor.
Qed.

Lemma http_error_no_injection_witness :
  Forall (fun e => is_send_keys e = false)
    (trace (Shellai.script (sample_world keyed_env sample_args server_error (Ok tt))))
  ∧ Print (py "Error: 500\n")
    ∈ trace (Shellai.script (sample_world keyed_env sample_args server_error (Ok tt)))
  ∧ Forall (fun e => is_send_keys e = false)
      (trace (Shellai.main (sample_world keyed_env sample_args server_error (Ok tt))
                (sample_globals (sample_args (py "main:0.0")))
                (py "list files:\n$ ls") (py "system"))).
Proof.
  pose proof (http_error_no_injection
                (sample_world keyed_env sample_args server_error (Ok tt))) as [Hm Hs].
  assert (Hscript :
    Print ((py "Error: " ++ str_of_Z 500) ++ [10])
      ∈ trace (Shellai.script (sample_world keyed_env sample_args server_error (Ok tt)))
    ∧ Forall (fun e => is_send_keys e = false)
        (trace (Shellai.script (sample_world keyed_env sample_args server_error (Ok tt))))).
  { destruct (Shellai.startup (sample_world keyed_env sample_args server_error (Ok tt)))
      as [tr [st|e]] eqn:E; vm_compute in E; [|discriminate].
    injection E as <- <-.
    destruct (Hs _ _ (py "sk-test")
                (sample_response 500 (py "Internal Server Error") (Raise ValueError))
                eq_refl) as (_ & Herr & _ & Hno);
      [vm_compute; reflexivity | reflexivity | vm_compute; discriminate
      | reflexivity | reflexivity | vm_compute; reflexivity | discriminate | ].
    split; [exact Herr | exact Hno]. }
  destruct Hscript as [Herr Hno]. split; [exact Hno|]. split; [exact Herr|].
  destruct (Hm (sample_globals (sample_args (py "main:0.0")))
              (py "list files:\n$ ls") (py "system")
              (sample_response 500 (py "Internal Server Error") (Raise ValueError))
              eq_refl eq_refl eq_refl) as [_ H]; [discriminate|].
  exact H.
Defined.

(** ** Log files *)

Lemma fetch_response_no_run (w : World) (g : Shellai.Globals) (prompt sp : str) :
  Forall no_run (trace (Shellai.fetch_response w g prompt sp)).
Proof.
  unfold Shellai.fetch_response, Shellai.call_wrapper,
    Shellai.get_response_debug,
    Shellai.get_response_default, Shellai.get_response_gemini,
    Shellai.get_response_anthropic, quit.
  walk; exact I.
Qed.

Lemma get_response_log_failure (w : World) (g : Shellai.Globals) (prompt sp : str)
    (path : str) (e : exn) (t : list event) (response : json) :
  log (Shellai.args g) = Some path ->
  open_append w path = Raise e ->
  Shellai.fetch_response w g prompt sp = (t, Ok response) ->
  Shellai.get_response w g prompt sp = (t, Raise e).
Proof.
  intros Hlog Happend Hfetch. unfold Shellai.get_response.
  rewrite (bind_Ok _ _ _ _ Hfetch), Hlog, Happend.
  unfold trace, outcome. cbn [lift mbind M_bind fst snd].
  rewrite app_nil_r. reflexivity.
Qed.

(** C7, as stated, fails: with a log file that cannot be written the debug
    run below ends with the uncaught [OSError] and sends nothing to the
    pane; with a writable file the same run does inject the command. *)
Lemma log_failure_stops_delivery :
  (outcome (Shellai.script (sample_world keyed_env logging_args server_error (Raise OSError)))
   = Raise OSError
   ∧ existsb is_send_keys
       (trace (Shellai.script
                 (sample_world keyed_env logging_args server_error (Raise OSError))))
     = false)
  ∧ (outcome (Shellai.script
                (sample_world keyed_env command_log_args server_error (Raise OSError)))
     = Raise OSError
     ∧ existsb is_send_keys
         (trace (Shellai.script
                   (sample_world keyed_env command_log_args server_error (Raise OSError))))
       = false)
  ∧ last (trace (Shellai.script
                   (sample_world keyed_env logging_args server_error (Ok tt))))
    = Some (Print (py "\n\n"))
  ∧ existsb is_send_keys
      (trace (Shellai.script (sample_world keyed_env logging_args server_error (Ok tt))))
    = true.
Proof. conjuncts; vm_compute; reflexivity. Qed.

(** C7, amended: a failure to append to the response log or to the command
    log is not caught.  It ends [get_response], and so [main], before the
    command is extracted, and it ends [put_command] before anything is sent:
    no [tmux send-keys] call is made, and the exception of the file system
    is the uncaught exception that ends the invocation. *)
Theorem log_failure_aborts (w : World) (g : Shellai.Globals) :
  (∀ (prompt sp path : str) (e : exn),
     log (Shellai.args g) = Some path ->
     open_append w path = Raise e ->
     Forall (fun ev => is_send_keys ev = false) (trace (Shellai.main w g prompt sp))
     ∧ (∃ e', outcome (Shellai.main w g prompt sp) = Raise e')
     ∧ (∀ (t : list event) (response : json),
          Shellai.fetch_response w g prompt sp = (t, Ok response) ->
          Shellai.main w g prompt sp = (t, Raise e)))
  ∧ (∀ (command path : str) (e : exn),
       log_commands (Shellai.args g) = Some path ->
       open_append w path = Raise e ->
       Shellai.put_command w g command = ([], Raise e)).
Proof.
  split.
  - intros prompt sp path e Hlog Happend.
    pose proof (fetch_response_no_run w g prompt sp) as Hrun.
    destruct (Shellai.fetch_response w g prompt sp) as [t [response|e0]] eqn:Hfetch.
    + assert (Hmain : Shellai.main w g prompt sp = (t, Raise e)).
      { unfold Shellai.main.
        rewrite (bind_Raise _ _ _ _
                   (get_response_log_failure w g prompt sp path e t response
                      Hlog Happend Hfetch)).
        reflexivity. }
      rewrite Hmain. split; [|split].
      * apply no_run_no_send_keys, Hrun.
      * exists e. reflexivity.
      * intros t' response' Heq. injection Heq as <- <-. reflexivity.
    + rewrite (main_fetch_raises w g prompt sp t e0 Hfetch). split; [|split].
      * apply no_run_no_send_keys, Hrun.
      * exists e0. reflexivity.
      * intros t' response' Heq. discriminate.
  - intros command path e Hlog Happend. unfold Shellai.put_command.
    rewrite Hlog, Happend. reflexivity.
Qed.

Lemma log_failure_aborts_witness :
  Forall (fun ev => is_send_keys ev = false)
    (trace (Shellai.main (sample_world keyed_env logging_args server_error (Raise OSError))
              (sample_globals (logging_args (py "main:0.0")))
              (py "list files:\n$ ls") (py "system")))
  ∧ Shellai.put_command (sample_world keyed_env command_log_args server_error (Raise OSError))
      (sample_globals (command_log_args (py "main:0.0"))) (py "ls -la")
    = ([], Raise OSError).
Proof.
  split.
  - apply (proj1 (log_failure_aborts
                    (sample_world keyed_env logging_args server_error (Raise OSError))
                    (sample_globals (logging_args (py "main:0.0"))))
             (py "list files:\n$ ls") (py "system") (py "shellai.log") OSError
             eq_refl eq_refl).
  - apply (proj2 (log_failure_aborts
                    (sample_world keyed_env command_log_args server_error (Raise OSError))
                    (sample_globals (command_log_args (py "main:0.0"))))
             (py "ls -la") (py "commands.log") OSError eq_refl eq_refl).
Defined.

(** ** The pane injector *)








Lemma placed_text_starts (w : World) (g : Shellai.Globals) (command : str) :
  ∃ suffix, placed_text w g command = Shellai.clean_command command ++ suffix.
Proof.
  unfold placed_text. destruct (recursive (Shellai.args g) && own_pane g).
  - eexists. reflexivity.
  - exists []. rewrite app_nil_r. reflexivity.
Qed.

Lemma legacy_send_command_result (w : World) (f : LegacyFlags) (command : str) :
  Legacy.send_command w f command
  = ([Run (py "tmux send-keys" ++ [32]
           ++ (py "\x22"
               ++ (if l_recursive f
                   then Legacy.clean_command command ++ py ";ai "
                        ++ join [32] (argv_tail w)
                   else Legacy.clean_command command)
               ++ py "\x22")
           ++ [32] ++ (if l_auto f then py "ENTER" else []));
      Print [10; 10]]
     ++ (if l_auto f then [Sleep 2] else []),
     Ok tt).
Proof.
  unfold Legacy.send_command. destruct (l_auto f), (l_recursive f); reflexivity.
Qed.


(** [time.sleep] by duration, whatever the environment: two seconds, zero
    and minus zero are slept; a negative duration and not-a-number are a
    [ValueError]; 1e10 seconds, minus that, and infinity are an
    [OverflowError]; for 9e9 seconds the system decides. *)
Example sleep_by_duration (w : World) :
  sleep w 2 = ([Sleep 2], Ok tt)
  ∧ sleep w 0 = ([Sleep 0], Ok tt)
  ∧ sleep w (-0) = ([Sleep (-0)], Ok tt)
  ∧ sleep w (-1) = ([], Raise ValueError)
  ∧ sleep w nan = ([], Raise ValueError)
  ∧ sleep w 1e10 = ([], Raise OverflowError)
  ∧ sleep w (-1e10) = ([], Raise OverflowError)
  ∧ sleep w infinity = ([], Raise OverflowError)
  ∧ sleep w 9e9 = (lift (long_sleep w 9e9);; emit (Sleep 9e9))
  ∧ short_delay 2 = true
  ∧ short_delay 4e9 = true
  ∧ short_delay 5e9 = false.
Proof. conjuncts; reflexivity. Qed.




(** ** Whole runs *)

(** The scenarios of the specification without and with one code block. *)
Example extract_scenarios :
  Shellai.extract_command_value (py "Use ls.\n```bash\nls -la\n```") = Ok (py "ls -la")
  ∧ Legacy.extract_command_value (py "Use ls.\n```bash\nls -la\n```")
    = Ok (py "ls -la", py "Use ls.\n```bash\nls -la\n```")
  ∧ Shellai.extract_command_value (py "Check the disk.\nLike this:\ndf -h") = Ok (py "df -h")
  ∧ Legacy.extract_command_value (py "Check the disk.\nLike this:\ndf -h")
    = Ok (py "df -h", py "Check the disk.\nLike this:").
Proof. conjuncts; vm_compute; reflexivity. Qed.

(** A debug run with [--auto]: what reaches tmux, and when. *)
Example debug_run_with_auto :
  outcome (Shellai.script (sample_world keyed_env auto_args server_error (Ok tt)))
  = Ok tt
  ∧ List.filter (fun e => match e with Print _ => false | _ => true end)
      (trace (Shellai.script (sample_world keyed_env auto_args server_error (Ok tt))))
    = [Run (py "tmux display-message -p '#S:#I.#P'");
       Run (py "tmux capture-pane -p -t main:0.0 -S -0");
       Run (py "tmux send-keys -t main:0.0 \x22echo \\\x22\\$(list files)\\\x22\x22");
       Sleep 2;
       Run (py "tmux send-keys -t main:0.0  ENTER")].
Proof. conjuncts; vm_compute; reflexivity. Qed.

(** * Further properties: what the scanner finds *)

Lemma lazy_group_line (a : N) (s g rest : str) :
  lazy_group [a] s = Some (g, rest) -> ∃ c g', g = c :: g' ∧ a ∉ g'.
Proof.
  revert g. induction s as [|c t IH]; intros g H; [discriminate|].
  rewrite lazy_group_cons in H.
  destruct (strip_prefix [a] t) as [r|] eqn:E.
  - injection H as <- <-. exists c, []. split; [reflexivity|apply not_elem_of_nil].
  - destruct (lazy_group [a] t) as [[g1 r1]|] eqn:E1; [|discriminate].
    injection H as <- <-. exists c, g1. split; [reflexivity|].
    destruct (IH g1 eq_refl) as (c1 & g1' & -> & Hg1).
    apply lazy_group_Some in E1 as [-> _].
    apply not_elem_of_cons. split; [|exact Hg1].
    intros <-. cbn in E. rewrite N.eqb_refl in E. discriminate.
Qed.

Lemma opt_tag_Some {A} (k : str -> option A) (s : str) (r : A) :
  opt_tag k s = Some r -> ∃ g x, s = tag_text g ++ x ∧ k x = Some r.
Proof.
  unfold opt_tag. intros H.
  destruct (strip_prefix (py "bash") s ≫= k) as [r1|] eqn:E1.
  { injection H as ->. destruct (strip_prefix (py "bash") s) as [x|] eqn:Ex; [|discriminate].
    apply strip_prefix_Some in Ex. exists Bash, x. split; assumption. }
  destruct (strip_prefix (py "shell") s ≫= k) as [r2|] eqn:E2.
  { injection H as ->. destruct (strip_prefix (py "shell") s) as [x|] eqn:Ex; [|discriminate].
    apply strip_prefix_Some in Ex. exists Shell, x. split; assumption. }
  exists NoTag, s. split; [reflexivity|exact H].
Qed.

(** A match is an opening fence line, the group, and the terminator. *)
Lemma match_block_Some (term s g rest : str) :
  match_block term s = Some (g, rest) ->
  ∃ tg, s = fence ++ tag_text tg ++ [10] ++ g ++ term ++ rest ∧ g ≠ [].
Proof.
  unfold match_block. intros H.
  destruct (strip_prefix fence s) as [x|] eqn:E; [|discriminate].
  apply strip_prefix_Some in E. subst s. cbn [mbind option_bind] in H.
  apply opt_tag_Some in H as (tg & y & -> & Hy).
  destruct (strip_prefix [10] y) as [z|] eqn:Ez; [|discriminate].
  apply strip_prefix_Some in Ez. subst y. cbn [mbind option_bind] in Hy.
  apply lazy_group_Some in Hy as [-> Hne].
  exists tg. split; [reflexivity|exact Hne].
Qed.

Lemma findall_from_elem (term : str) (fuel : nat) (s g : str) :
  g ∈ findall_from term fuel s ->
  ∃ pre s' rest, s = pre ++ s' ∧ match_block term s' = Some (g, rest).
Proof.
  revert s. induction fuel as [|fuel IH]; intros s H; [by apply elem_of_nil in H|].
  cbn [findall_from] in H.
  destruct (match_block term s) as [[g0 rest0]|] eqn:E.
  - apply elem_of_cons in H as [-> | H].
    + exists [], s, rest0. split; [reflexivity|exact E].
    + destruct (IH _ H) as (pre & s' & rest & -> & Hm).
      apply match_block_Some in E as (tg & -> & _).
      exists (fence ++ tag_text tg ++ [10] ++ g0 ++ term ++ pre), s', rest.
      split; [|exact Hm]. rewrite <- !app_assoc. reflexivity.
  - destruct s as [|c t]; [by apply elem_of_nil in H|].
    destruct (IH _ H) as (pre & s' & rest & -> & Hm).
    exists (c :: pre), s', rest. split; [reflexivity|exact Hm].
Qed.

Lemma findall_blocks_line (s g : str) :
  g ∈ findall_blocks [10] s -> ∃ c g', g = c :: g' ∧ 10 ∉ g'.
Proof.
  intros H. apply findall_from_elem in H as (pre & s' & rest & -> & Hm).
  pose proof (match_block_Some _ _ _ _ Hm) as (tg & -> & _).
  rewrite match_block_open in Hm. eapply lazy_group_line, Hm.
Qed.

(** X1: every block [re.findall] reports is a non-empty text that stands in
    the response between an opening fence line (three backticks, then
    [bash], [shell] or nothing, then a line feed) and the terminator of the
    pattern; with the line-feed terminator of [shellai.py] the block holds
    no line feed after its first character. *)
Theorem findall_blocks_sound (term s g : str) :
  g ∈ findall_blocks term s ->
  g ≠ []
  ∧ (∃ pre tg post, s = pre ++ fence ++ tag_text tg ++ [10] ++ g ++ term ++ post)
  ∧ (term = [10] -> ∃ c g', g = c :: g' ∧ 10 ∉ g').
Proof.
  intros H. apply findall_from_elem in H as (pre & s' & rest & -> & Hm).
  pose proof (match_block_Some _ _ _ _ Hm) as (tg & Hs & Hne).
  split; [exact Hne|]. split.
  - exists pre, tg, rest. rewrite Hs. reflexivity.
  - intros ->. subst s'. rewrite match_block_open in Hm.
    eapply lazy_group_line, Hm.
Qed.

Lemma findall_blocks_sound_witness :
  py "ls -la" ≠ []
  ∧ ∃ pre tg post,
      py "Use ls.\n```bash\nls -la\n```"
      = pre ++ fence ++ tag_text tg ++ [10] ++ py "ls -la" ++ [10] ++ post.
Proof.
  destruct (findall_blocks_sound [10] (py "Use ls.\n```bash\nls -la\n```") (py "ls -la"))
    as (Hne & Hocc & _).
  { refine (bool_decide_unpack _ _). vm_compute. exact I. }
  split; [exact Hne | exact Hocc].
Defined.

(** * Further properties: the extracted command *)

Lemma linebreak_is_space (x : N) : is_linebreak x = true -> isspace x = true.
Proof.
  unfold is_linebreak, isspace.
  rewrite !orb_true_iff, !andb_true_iff, !N.leb_le, !N.eqb_eq. lia.
Qed.

Lemma rstrip_elem_of (x : N) (s : str) : x ∈ rstrip s -> x ∈ s.
Proof.
  unfold rstrip. intros H.
  apply list_elem_of_In, in_rev, list_elem_of_In in H.
  apply lstrip_elem_of in H.
  apply list_elem_of_In, in_rev, list_elem_of_In in H. exact H.
Qed.

Lemma lstrip_nil (s : str) :
  lstrip s = [] -> Forall (fun c => isspace c = true) s.
Proof.
  induction s as [|c s IH]; [constructor|]. cbn.
  destruct (isspace c) eqn:E; [|discriminate]. intros H. constructor; auto.
Qed.

Lemma strip_nil (s : str) :
  strip s = [] -> Forall (fun c => isspace c = true) s.
Proof.
  unfold strip, rstrip. intros H.
  apply (f_equal (@rev N)) in H. rewrite rev_involutive in H. cbn in H.
  apply lstrip_nil in H.
  destruct (lstrip s) as [|c t] eqn:E; [apply lstrip_nil, E|].
  apply lstrip_head in E. rewrite Forall_forall in H.
  assert (Hc : isspace c = true).
  { apply H, list_elem_of_In, in_rev. rewrite rev_involutive. left. reflexivity. }
  congruence.
Qed.

Lemma split_on_pieces (sep : N) (s l : str) :
  l ∈ split_on sep s -> sep ∉ l.
Proof.
  revert l. induction s as [|c s IH]; intros l H.
  - cbn in H. apply list_elem_of_singleton in H as ->. apply not_elem_of_nil.
  - cbn in H. destruct (N.eqb_spec c sep) as [->|Hc].
    + apply elem_of_cons in H as [-> | H]; [apply not_elem_of_nil|auto].
    + destruct (split_on sep s) as [|h r] eqn:E.
      * apply list_elem_of_singleton in H as ->.
        apply not_elem_of_cons. split; [congruence|apply not_elem_of_nil].
      * apply elem_of_cons in H as [-> | H].
        -- apply not_elem_of_cons. split; [congruence|]. apply IH. left.
        -- apply IH. right. exact H.
Qed.

(** At a line boundary the current line is closed; a line feed right after
    a carriage return belongs to the same boundary. *)
Lemma splitlines_from_break (a c : N) (s cur : str) :
  is_linebreak a = true -> is_linebreak c = false ->
  ∃ skip s0,
    s = skip ++ s0 ∧ (skip = [] ∨ skip = [10])
    ∧ splitlines_from cur (a :: s ++ [c]) = rev cur :: splitlines_from [] (s0 ++ [c]).
Proof.
  intros Ha Hc. cbn [splitlines_from]. rewrite Ha.
  destruct (N.eqb_spec a 13) as [->|_].
  - destruct s as [|d s'].
    + exists [], []. cbn [app]. destruct (N.eqb_spec c 10) as [->|_]; [discriminate|].
      split; [reflexivity|]. split; [left|]; reflexivity.
    + cbn [app]. destruct (N.eqb_spec d 10) as [->|_].
      * exists [10], s'. split; [reflexivity|]. split; [right|]; reflexivity.
      * exists [], (d :: s'). split; [reflexivity|]. split; [left|]; reflexivity.
  - exists [], s. split; [reflexivity|]. split; [left|]; reflexivity.
Qed.

(** The last line of a text that ends with a character that is no line
    boundary: it ends with that character, holds no line boundary, and is
    the end of the text, from its start or from after a boundary. *)
Lemma splitlines_from_last (n : nat) (s cur : str) (c : N) :
  (length s <= n)%nat ->
  is_linebreak c = false ->
  Forall (fun x => is_linebreak x = false) cur ->
  ∃ l pre,
    last (splitlines_from cur (s ++ [c])) = Some (l ++ [c])
    ∧ Forall (fun x => is_linebreak x = false) l
    ∧ rev cur ++ s = pre ++ l
    ∧ (pre = [] ∨ ∃ p b, pre = p ++ [b] ∧ is_linebreak b = true).
Proof.
  revert s cur. induction n as [|n IH]; intros s cur Hn Hc Hcur.
  - destruct s; [|cbn in Hn; lia].
    exists (rev cur), []. cbn. rewrite Hc. cbn.
    split; [reflexivity|]. split; [|split; [rewrite app_nil_r; reflexivity | left; reflexivity]].
    apply Forall_forall. intros x Hx. rewrite Forall_forall in Hcur.
    apply Hcur, list_elem_of_In, in_rev, list_elem_of_In, Hx.
  - destruct s as [|a s].
    { apply (IH [] cur); [cbn; lia | assumption | assumption]. }
    destruct (is_linebreak a) eqn:Ha.
    + destruct (splitlines_from_break a c s cur Ha Hc) as (skip & s0 & -> & Hskip & Heq).
      change ((a :: skip ++ s0) ++ [c]) with (a :: (skip ++ s0) ++ [c]). rewrite Heq.
      destruct (IH s0 [] ltac:(cbn in Hn; rewrite length_app in Hn; lia) Hc
                  ltac:(constructor)) as (l & pre & Hl & Hline & Hs0 & Hpre).
      cbn [rev app] in Hs0. subst s0.
      exists l, (rev cur ++ a :: skip ++ pre).
      split; [rewrite last_cons, Hl; reflexivity|]. split; [exact Hline|].
      split; [rewrite <- !app_assoc; cbn [app]; rewrite <- !app_assoc; reflexivity|].
      right. destruct Hpre as [-> | (p & b & -> & Hb)].
      * rewrite app_nil_r. destruct Hskip as [-> | ->].
        -- exists (rev cur), a. split; [reflexivity|exact Ha].
        -- exists (rev cur ++ [a]), 10. split; [rewrite <- app_assoc; reflexivity|reflexivity].
      * exists (rev cur ++ a :: skip ++ p), b. split; [|exact Hb].
        rewrite <- !app_assoc. cbn [app]. rewrite <- !app_assoc. reflexivity.
    + cbn [app splitlines_from]. rewrite Ha.
      destruct (IH s (a :: cur) ltac:(cbn in Hn; lia) Hc
                  ltac:(constructor; assumption)) as (l & pre & Hl & Hline & Hs & Hpre).
      exists l, pre. split; [exact Hl|]. split; [exact Hline|]. split; [|exact Hpre].
      rewrite <- Hs. cbn [rev]. rewrite <- app_assoc. reflexivity.
Qed.

Lemma index_last_split_shape (b cmd : str) :
  index_last (split_on 10 (strip b)) = Ok cmd ->
  (10 ∉ cmd) ∧ (cmd = [] ∨ ∃ s c, cmd = s ++ [c] ∧ isspace c = false).
Proof.
  unfold index_last. intros H.
  destruct (last (split_on 10 (strip b))) as [l|] eqn:E; [|discriminate].
  injection H as ->. split.
  - eapply split_on_pieces, last_Some_elem_of, E.
  - destruct (strip_end b) as [Hnil | (s' & c & Hs & Hc)].
    + rewrite Hnil in E. cbn in E. injection E as <-. left. reflexivity.
    + rewrite Hs in E. destruct (split_on_snoc 10 c s') as [l Hl].
      { intros ->. discriminate. }
      rewrite Hl in E. injection E as <-. right. exists l, c. split; [reflexivity|exact Hc].
Qed.

Lemma index_last_splitlines_shape (response cmd : str) :
  index_last (splitlines (strip response)) = Ok cmd ->
  cmd ≠ []
  ∧ Forall (fun x => is_linebreak x = false) cmd
  ∧ (∃ s c, cmd = s ++ [c] ∧ isspace c = false)
  ∧ ∃ pre, strip response = pre ++ cmd
           ∧ (pre = [] ∨ ∃ p b, pre = p ++ [b] ∧ is_linebreak b = true).
Proof.
  unfold index_last, splitlines. intros H.
  destruct (strip_end response) as [Hnil | (s' & c & Hs & Hc)].
  { rewrite Hnil in H. discriminate. }
  rewrite Hs in H |- *.
  assert (Hlb : is_linebreak c = false).
  { destruct (is_linebreak c) eqn:E; [|reflexivity].
    apply linebreak_is_space in E. congruence. }
  destruct (splitlines_from_last (length s') s' [] c (le_n _) Hlb ltac:(constructor))
    as (l & pre & Hl & Hline & Hpre & Hend).
  rewrite Hl in H. injection H as <-. cbn [rev app] in Hpre. subst s'.
  split; [by destruct l|]. split.
  { apply Forall_app. split; [exact Hline|]. constructor; [exact Hlb|constructor]. }
  split; [exists l, c; split; [reflexivity|exact Hc]|].
  exists pre. split; [rewrite <- app_assoc; reflexivity|exact Hend].
Qed.

(** X2: whenever the scan finds a block, the command comes from the last
    block found.  In [shellAI.py] it is the last non-empty line of that
    block.  In [shellai.py] the block never holds a second line, so the
    final split is idle and the command is the whole block, stripped. *)
Theorem command_of_last_block :
  (∀ s b : str,
     last (findall_blocks [10] s) = Some b ->
     Shellai.extract_command_value s = Ok (strip b)
     ∧ strip b = last_nonempty_line b)
  ∧ (∀ s b : str,
       last (findall_blocks fence s) = Some b ->
       Legacy.extract_command_value s = Ok (last_nonempty_line b, s)).
Proof.
  split.
  - intros s b Hlast.
    assert (Hb : 10 ∉ strip b).
    { pose proof (last_Some_elem_of _ _ Hlast) as Hin.
      apply findall_blocks_line in Hin as (c & b' & -> & Hb').
      intros Hin. unfold strip in Hin. apply rstrip_elem_of in Hin.
      cbn [lstrip] in Hin. destruct (isspace c) eqn:Ec.
      - apply Hb', lstrip_elem_of, Hin.
      - apply elem_of_cons in Hin as [<- | Hin]; [discriminate|]. exact (Hb' Hin). }
    assert (Hs : index_last (split_on 10 (strip b)) = Ok (strip b)).
    { rewrite split_on_plain by exact Hb. reflexivity. }
    split.
    + unfold Shellai.extract_command_value.
      destruct (findall_blocks [10] s) as [|b0 bs] eqn:E; [discriminate|].
      unfold index_last at 2. rewrite Hlast. exact Hs.
    + rewrite last_line_of_stripped in Hs. congruence.
  - intros s b Hlast. unfold Legacy.extract_command_value.
    destruct (findall_blocks fence s) as [|b0 bs] eqn:E; [discriminate|].
    pose proof (last_line_of_stripped b) as Hline.
    unfold index_last in *. rewrite Hlast. cbn [mbind result_bind].
    rewrite Hline. reflexivity.
Qed.

Lemma command_of_last_block_witness :
  Shellai.extract_command_value (render two_block_response) = Ok (py "echo bye")
  ∧ Legacy.extract_command_value (render two_block_response)
    = Ok (py "echo final", render two_block_response).
Proof.
  destruct command_of_last_block as [Hs Hl]. split.
  - destruct (Hs (render two_block_response) (py "echo bye")) as [H _];
      [vm_compute; reflexivity|].
    rewrite H. vm_compute. reflexivity.
  - rewrite (Hl (render two_block_response) (py "echo bye\necho final\n"));
      vm_compute; reflexivity.
Defined.

(** X3: a command that either script extracts never holds a line feed, and
    it is empty or ends with a character that is not white space. *)
Theorem extracted_command_shape :
  (∀ response command : str,
     Shellai.extract_command_value response = Ok command ->
     (10 ∉ command)
     ∧ (command = [] ∨ ∃ s c, command = s ++ [c] ∧ isspace c = false))
  ∧ (∀ response command shown : str,
       Legacy.extract_command_value response = Ok (command, shown) ->
       (10 ∉ command)
       ∧ (command = [] ∨ ∃ s c, command = s ++ [c] ∧ isspace c = false)).
Proof.
  assert (Hfall : ∀ response command,
            index_last (splitlines (strip response)) = Ok command ->
            (10 ∉ command)
            ∧ (command = [] ∨ ∃ s c, command = s ++ [c] ∧ isspace c = false)).
  { intros response command H.
    apply index_last_splitlines_shape in H as (_ & Hline & Hend & _).
    split; [|right; exact Hend].
    intros Hin. rewrite Forall_forall in Hline. specialize (Hline _ Hin). discriminate. }
  split.
  - intros response command. unfold Shellai.extract_command_value.
    destruct (findall_blocks [10] response) as [|b0 bs]; [apply Hfall|].
    destruct (index_last (b0 :: bs)) as [b|e]; [|discriminate].
    cbn [mbind result_bind]. apply index_last_split_shape.
  - intros response command shown. unfold Legacy.extract_command_value.
    destruct (findall_blocks fence response) as [|b0 bs].
    + destruct (index_last (splitlines (strip response))) as [cmd|e] eqn:E;
        [|discriminate].
      cbn [mbind result_bind mret result_ret]. intros [= <- <-]. eapply Hfall, E.
    + destruct (index_last (b0 :: bs)) as [b|e]; [|discriminate].
      cbn [mbind result_bind].
      destruct (index_last (split_on 10 (strip b))) as [cmd|e] eqn:E; [|discriminate].
      cbn [mbind result_bind mret result_ret]. intros [= <- <-].
      eapply index_last_split_shape, E.
Qed.

Lemma extracted_command_shape_witness :
  (10 ∉ py "ls -la")
  ∧ (py "ls -la" = [] ∨ ∃ s c, py "ls -la" = s ++ [c] ∧ isspace c = false).
Proof.
  apply (proj1 extracted_command_shape (py "Use ls.\n```bash\nls -la  \n```")).
  vm_compute. reflexivity.
Defined.

(** X4: a response without any backtick holds no code block.  If it holds
    a character that is not white space, the command is the last line of
    the stripped response: not empty, free of line boundaries, and the end
    of the stripped response from its start or from after a line boundary.
    [shellAI.py] then shows the lines before it. *)
Theorem extract_without_fence (response : str) :
  96 ∉ response ->
  Exists (fun c => isspace c = false) response ->
  ∃ command pre,
    Shellai.extract_command_value response = Ok command
    ∧ Legacy.extract_command_value response
      = Ok (command, join [10] (removelast (splitlines (strip response))))
    ∧ command ≠ []
    ∧ Forall (fun x => is_linebreak x = false) command
    ∧ strip response = pre ++ command
    ∧ (pre = [] ∨ ∃ p b, pre = p ++ [b] ∧ is_linebreak b = true).
Proof.
  intros Hbt Hchar.
  unfold Shellai.extract_command_value, Legacy.extract_command_value.
  rewrite !findall_blocks_nothing by exact Hbt.
  destruct (index_last (splitlines (strip response))) as [cmd|e] eqn:E.
  - pose proof (index_last_splitlines_shape _ _ E) as (Hne & Hline & _ & pre & Hpre & Hend).
    exists cmd, pre. cbn [mbind result_bind mret result_ret]. done.
  - exfalso. unfold index_last, splitlines in E.
    destruct (strip_end response) as [Hnil | (s' & c & Hs & Hc)].
    + apply strip_nil in Hnil. apply Exists_exists in Hchar as (c & Hin & Hc).
      rewrite Forall_forall in Hnil. specialize (Hnil _ Hin). congruence.
    + rewrite Hs in E.
      assert (Hlb : is_linebreak c = false).
      { destruct (is_linebreak c) eqn:El; [|reflexivity].
        apply linebreak_is_space in El. congruence. }
      destruct (splitlines_from_last (length s') s' [] c (le_n _) Hlb ltac:(constructor))
        as (l & pre & Hl & _).
      rewrite Hl in E. discriminate.
Qed.

Lemma extract_without_fence_witness :
  ∃ command pre,
    Shellai.extract_command_value (py "Check the disk.\r\nLike this:\ndf -h \n")
    = Ok command
    ∧ Legacy.extract_command_value (py "Check the disk.\r\nLike this:\ndf -h \n")
      = Ok (command,
            join [10] (removelast (splitlines
                         (strip (py "Check the disk.\r\nLike this:\ndf -h \n")))))
    ∧ command ≠ []
    ∧ Forall (fun x => is_linebreak x = false) command
    ∧ strip (py "Check the disk.\r\nLike this:\ndf -h \n") = pre ++ command
    ∧ (pre = [] ∨ ∃ p b, pre = p ++ [b] ∧ is_linebreak b = true).
Proof.
  apply (extract_without_fence (py "Check the disk.\r\nLike this:\ndf -h \n")).
  - refine (bool_decide_unpack _ _). vm_compute. exact I.
  - apply Exists_exists. exists 67. split; [|reflexivity].
    refine (bool_decide_unpack _ _). vm_compute. exact I.
Defined.

(** * Further properties: the sanitizer *)

Section SanitizerRoundTrip.

Variable newline_as : str.
Hypothesis newline_as_plain :
  newline_as = [32] ∨ newline_as = [].

Lemma rewrite_all_plain (c : str) :
  Forall (fun x => plain_char x = true) c -> rewrite_all newline_as c = c.
Proof.
  induction 1 as [|x c Hx _ IH]; [reflexivity|].
  rewrite rewrite_cons, IH. unfold rewrite_char.
  unfold plain_char, escaped_form in Hx.
  destruct (x =? 34), (x =? 10), (x =? 36), (x =? 96), (x =? 92);
    try discriminate. reflexivity.
Qed.

Lemma rewrite_all_fixed (c : str) :
  rewrite_all newline_as c = c -> Forall (fun x => plain_char x = true) c.
Proof.
  intros Hfix.
  assert (Hnl : 10 ∉ c).
  { rewrite <- Hfix. apply rewrite_no_newline, newline_as_plain. }
  pose proof (rewrite_length newline_as c Hnl) as Hlen.
  rewrite Hfix in Hlen.
  assert (Hesc : List.filter escaped_form c = []).
  { destruct (List.filter escaped_form c); [reflexivity|]. cbn in Hlen. lia. }
  apply Forall_forall. intros x Hx. unfold plain_char.
  destruct (escaped_form x) eqn:Ex.
  - assert (Hin : In x (List.filter escaped_form c)).
    { apply List.filter_In. split; [apply list_elem_of_In, Hx | exact Ex]. }
    rewrite Hesc in Hin. destruct Hin.
  - destruct (N.eqb_spec x 10) as [->|_]; [contradiction|reflexivity].
Qed.

Lemma read_back_rewrite_all (c : str) :
  read_back (rewrite_all newline_as c)
  = concat (map (fun x => if x =? 10 then newline_as else [x]) c).
Proof.
  induction c as [|x c IH]; [reflexivity|].
  rewrite rewrite_cons. cbn [map concat]. rewrite <- IH. unfold rewrite_char.
  destruct (N.eqb_spec x 34) as [->|H1]; [reflexivity|].
  destruct (N.eqb_spec x 10) as [->|H2].
  { destruct newline_as_plain as [-> | ->]; reflexivity. }
  destruct (N.eqb_spec x 36) as [->|H3]; [reflexivity|].
  destruct (N.eqb_spec x 96) as [->|H4]; [reflexivity|].
  destruct (N.eqb_spec x 92) as [->|H5]; [reflexivity|].
  cbn [app read_back]. apply N.eqb_neq in H5. rewrite H5. reflexivity.
Qed.

Lemma rewrite_all_injective (c1 c2 : str) :
  10 ∉ c1 -> 10 ∉ c2 ->
  rewrite_all newline_as c1 = rewrite_all newline_as c2 -> c1 = c2.
Proof.
  assert (Hid : ∀ c : str, 10 ∉ c ->
            concat (map (fun x => if x =? 10 then newline_as else [x]) c) = c).
  { induction c as [|x c IH]; [reflexivity|]. intros H.
    apply not_elem_of_cons in H as [Hx Hc]. cbn [map concat].
    destruct (N.eqb_spec x 10) as [->|_]; [done|]. rewrite IH by exact Hc. reflexivity. }
  intros H1 H2 Heq. apply (f_equal read_back) in Heq.
  rewrite !read_back_rewrite_all, !Hid in Heq by assumption. exact Heq.
Qed.

End SanitizerRoundTrip.

(** X5: [clean_command] returns its argument unchanged exactly when the
    argument holds no double quote, dollar sign, backtick, backslash or line
    feed; this holds for both scripts. *)
Theorem clean_command_fixed_points (c : str) :
  (Shellai.clean_command c = c ↔ Forall (fun x => plain_char x = true) c)
  ∧ (Legacy.clean_command c = c ↔ Forall (fun x => plain_char x = true) c).
Proof.
  rewrite shellai_clean_command_table, legacy_clean_command_table. split; split.
  - apply (rewrite_all_fixed [32]). by left.
  - apply (rewrite_all_plain [32]).
  - apply (rewrite_all_fixed []). by right.
  - apply (rewrite_all_plain []).
Qed.

(** X6: on commands without a line feed [clean_command] is injective: two
    different commands are never sent as the same text.  (A line feed is
    lost: in [shellai.py] it becomes the space that a space also gives.) *)
Theorem clean_command_injective (c1 c2 : str) :
  10 ∉ c1 -> 10 ∉ c2 -> c1 ≠ c2 ->
  Shellai.clean_command c1 ≠ Shellai.clean_command c2
  ∧ Legacy.clean_command c1 ≠ Legacy.clean_command c2.
Proof.
  intros H1 H2 Hne.
  rewrite !shellai_clean_command_table, !legacy_clean_command_table. split.
  - intros Heq. apply Hne, (rewrite_all_injective [32]); [by left|assumption..].
  - intros Heq. apply Hne, (rewrite_all_injective []); [by right|assumption..].
Qed.

Lemma clean_command_injective_witness :
  Shellai.clean_command (py "echo \x22a\x22") ≠ Shellai.clean_command (py "echo \\\x22a\\\x22")
  ∧ Legacy.clean_command (py "echo \x22a\x22") ≠ Legacy.clean_command (py "echo \\\x22a\\\x22").
Proof.
  apply (clean_command_injective (py "echo \x22a\x22") (py "echo \\\x22a\\\x22")).
  - refine (bool_decide_unpack _ _). vm_compute. exact I.
  - refine (bool_decide_unpack _ _). vm_compute. exact I.
  - discriminate.
Defined.

Example clean_command_merges_lines :
  Shellai.clean_command (py "a\nb") = Shellai.clean_command (py "a b")
  ∧ Legacy.clean_command (py "a\nb") = Legacy.clean_command (py "ab").
Proof. split; reflexivity. Qed.

(** X7: read back the way a shell reads the inside of a double-quoted
    string, the sanitized text is the command itself, with every line feed
    turned into a space in [shellai.py] and dropped in [shellAI.py]. *)
Theorem read_back_clean_command (c : str) :
  read_back (Shellai.clean_command c) = map (fun x => if x =? 10 then 32 else x) c
  ∧ read_back (Legacy.clean_command c) = List.filter (fun x => negb (x =? 10)) c.
Proof.
  rewrite shellai_clean_command_table, legacy_clean_command_table.
  pose proof (read_back_rewrite_all [32] (or_introl eq_refl) c) as H1.
  pose proof (read_back_rewrite_all [] (or_intror eq_refl) c) as H2.
  unfold rewrite_all in H1, H2. rewrite H1, H2. clear H1 H2.
  split; induction c as [|x c IH]; try reflexivity.
  - cbn [map concat]. rewrite IH. destruct (x =? 10); reflexivity.
  - cbn [map concat List.filter]. rewrite IH. destruct (x =? 10); reflexivity.
Qed.

(** * Further properties: what is placed in the pane *)

(** After a well-escaped text the reading starts afresh. *)
Lemma well_escaped_app_n (n : nat) (a b : str) :
  (length a <= n)%nat -> well_escaped a = true ->
  well_escaped (a ++ b) = well_escaped b.
Proof.
  revert a. induction n as [|n IH]; intros a Hn Ha.
  - destruct a; [reflexivity|cbn in Hn; lia].
  - destruct a as [|c a]; [reflexivity|]. cbn [app well_escaped] in *.
    destruct (c =? 92).
    + destruct a as [|d a]; [discriminate|]. cbn [app].
      apply andb_true_iff in Ha as [Hd Ha]. rewrite Hd. cbn [andb].
      apply IH; [cbn in Hn; lia|exact Ha].
    + apply andb_true_iff in Ha as [Hc Ha]. rewrite Hc. cbn [andb].
      apply IH; [cbn in Hn; lia|exact Ha].
Qed.

Lemma well_escaped_app (a b : str) :
  well_escaped a = true -> well_escaped (a ++ b) = well_escaped b.
Proof. apply (well_escaped_app_n (length a)). lia. Qed.

Lemma sleep_outcomes (w : World) (d : float) :
  sleep w d = ([Sleep d], Ok tt) ∨ ∃ e, sleep w d = ([], Raise e).
Proof.
  unfold sleep.
  destruct (is_nan d); [right; eexists; reflexivity|].
  destruct ((0 <=? nanoseconds d) && (nanoseconds d <? 4611686018427387904))%float;
    [left; reflexivity|].
  destruct (nanoseconds d <? -9223372036854775808)%float; [right; eexists; reflexivity|].
  destruct (nanoseconds d <? 0)%float; [right; eexists; reflexivity|].
  destruct (9223372036854775808 <? nanoseconds d)%float; [right; eexists; reflexivity|].
  destruct (long_sleep w d) as [[]|e]; [left | right; eexists]; reflexivity.
Qed.

Lemma put_command_places (w : World) (g : Shellai.Globals) (command : str) :
  (log_commands (Shellai.args g) = None
   ∨ ∃ path, log_commands (Shellai.args g) = Some path ∧ open_append w path = Ok tt) ->
  inject_event g (placed_text w g command) ∈ trace (Shellai.put_command w g command).
Proof.
  intros Hlog.
  unfold Shellai.put_command, placed_text, own_pane, inject_event.
  destruct (sleep_outcomes w (delay (Shellai.args g))) as [-> | [e ->]];
    destruct Hlog as [-> | (path & -> & ->)];
    destruct (auto (Shellai.args g)), (recursive (Shellai.args g)),
      (bool_decide (target (Shellai.args g) = Shellai.default_tmux_target g));
    unfold trace; cbn [fst mbind M_bind mret M_ret emit print when lift raise app andb negb];
    rewrite ?elem_of_cons; auto 6.
Qed.

Lemma shellai_clean_well_escaped (c : str) :
  well_escaped (Shellai.clean_command c) = true.
Proof. rewrite shellai_clean_command_table. apply rewrite_well_escaped. by left. Qed.

Lemma legacy_clean_well_escaped (c : str) :
  well_escaped (Legacy.clean_command c) = true.
Proof. rewrite legacy_clean_command_table. apply rewrite_well_escaped. by right. Qed.

(** X8: the text [put_command] places between the double quotes of its
    [tmux send-keys] call starts with the sanitized command.  It is well
    escaped, except that with [--recursive] on the own pane the words of
    the command line are appended as they are: then it is well escaped
    exactly when those words, joined by spaces, are.  [shellAI.py] appends
    them whenever [--recursive] is set. *)
Theorem placed_text_escaped (w : World) :
  (∀ (g : Shellai.Globals) (command : str),
     (log_commands (Shellai.args g) = None
      ∨ ∃ path, log_commands (Shellai.args g) = Some path
                ∧ open_append w path = Ok tt) ->
     ∃ text suffix,
       inject_event g text ∈ trace (Shellai.put_command w g command)
       ∧ text = Shellai.clean_command command ++ suffix
       ∧ well_escaped text
         = if recursive (Shellai.args g) && own_pane g
           then well_escaped (join [32] (argv_tail w)) else true)
  ∧ (∀ (f : LegacyFlags) (command : str),
       ∃ text suffix rest,
         Legacy.send_command w f command
         = (Run (py "tmux send-keys \x22" ++ text ++ py "\x22 "
                 ++ (if l_auto f then py "ENTER" else [])) :: rest, Ok tt)
         ∧ text = Legacy.clean_command command ++ suffix
         ∧ well_escaped text
           = if l_recursive f then well_escaped (join [32] (argv_tail w)) else true).
Proof.
  split.
  - intros g command Hlog.
    exists (placed_text w g command).
    destruct (placed_text_starts w g command) as [suffix Hsuffix].
    exists suffix. split; [apply put_command_places, Hlog|]. split; [exact Hsuffix|].
    unfold placed_text.
    destruct (recursive (Shellai.args g) && own_pane g).
    + rewrite well_escaped_app by apply shellai_clean_well_escaped.
      rewrite well_escaped_app by reflexivity. reflexivity.
    + apply shellai_clean_well_escaped.
  - intros f command. rewrite legacy_send_command_result.
    destruct (l_recursive f).
    + exists (Legacy.clean_command command ++ py ";ai " ++ join [32] (argv_tail w)),
             (py ";ai " ++ join [32] (argv_tail w)).
      eexists. split; [|split; [reflexivity|]].
      * cbn [app]. f_equal. f_equal. rewrite <- !app_assoc. reflexivity.
      * rewrite well_escaped_app by apply legacy_clean_well_escaped.
        rewrite well_escaped_app by reflexivity. reflexivity.
    + exists (Legacy.clean_command command), []. eexists.
      split; [|split; [rewrite app_nil_r; reflexivity|apply legacy_clean_well_escaped]].
      cbn [app]. f_equal. f_equal. rewrite <- !app_assoc. reflexivity.
Qed.

Lemma placed_text_escaped_witness :
  ∃ text suffix,
    inject_event (sample_globals (recursive_args (py "main:0.0"))) text
    ∈ trace (Shellai.put_command
               (sample_world keyed_env recursive_args server_error (Ok tt))
               (sample_globals (recursive_args (py "main:0.0"))) (py "ls \x22$HOME\x22"))
    ∧ text = Shellai.clean_command (py "ls \x22$HOME\x22") ++ suffix
    ∧ well_escaped text
      = if recursive (Shellai.args (sample_globals (recursive_args (py "main:0.0"))))
           && own_pane (sample_globals (recursive_args (py "main:0.0")))
        then well_escaped
               (join [32] (argv_tail (sample_world keyed_env recursive_args
                                        server_error (Ok tt))))
        else true.
Proof.
  apply (proj1 (placed_text_escaped
                  (sample_world keyed_env recursive_args server_error (Ok tt)))
           (sample_globals (recursive_args (py "main:0.0"))) (py "ls \x22$HOME\x22")).
  left. reflexivity.
Defined.

(** With [--recursive], a double quote among the words of the command line
    reaches the shell unescaped. *)
Example recursive_words_unescaped :
  well_escaped (Shellai.clean_command (py "ls") ++ py ";shellai "
                ++ join [32] [py "say"; py "\x22hi\x22"]) = false.
Proof. vm_compute. reflexivity. Qed.

(** * Further properties: from the response to the pane *)


Lemma inject_is_send_keys (g : Shellai.Globals) (text : str) :
  is_send_keys (inject_event g text) = true.
Proof. reflexivity. Qed.




(** * Further properties: runs that end early *)




Lemma providers_unknown (name : str) :
  name ∉ [py "openrouter"; py "xai"; py "gemini"; py "anthropic"; py "together";
          py "openai"] ->
  Shellai.providers !! name = None.
Proof.
  intros H. unfold Shellai.providers.
  rewrite !not_elem_of_cons in H. destruct H as (H1 & H2 & H3 & H4 & H5 & H6 & _).
  rewrite !lookup_insert_ne, lookup_singleton_ne by congruence. reflexivity.
Qed.

(** X11: a provider name outside the six of the table is not reported: the
    lookup [providers[args.provider]] raises [KeyError] right after the
    pane name was read, the process ends with status 1, and neither the
    input nor the credential is looked at. *)
Theorem unknown_provider_raises (w : World) (pane : str) (a : Args)
    (words : list str) :
  check_output w (py "tmux display-message -p '#S:#I.#P'") = Ok pane ->
  parse_known_args w (strip pane) = (a, words) ->
  provider_name a ∉ [py "openrouter"; py "xai"; py "gemini"; py "anthropic";
                     py "together"; py "openai"] ->
  Shellai.script w
  = ([Run (py "tmux display-message -p '#S:#I.#P'")], Raise KeyError)
  ∧ exit_status (outcome (Shellai.script w)) = 1%Z.
Proof.
  intros Hpane Hparse Hname.
  assert (Hs : Shellai.script w
               = ([Run (py "tmux display-message -p '#S:#I.#P'")], Raise KeyError)).
  { unfold Shellai.script, Shellai.startup, Shellai.run_check_output.
    rewrite Hpane. cbn [mbind M_bind emit lift mret M_ret app].
    rewrite Hparse. unfold Shellai.dict_item.
    rewrite (providers_unknown _ Hname). reflexivity. }
  rewrite Hs. split; reflexivity.
Qed.

Lemma unknown_provider_raises_witness :
  Shellai.script (sample_world keyed_env unknown_provider_args server_error (Ok tt))
  = ([Run (py "tmux display-message -p '#S:#I.#P'")], Raise KeyError)
  ∧ exit_status
      (outcome (Shellai.script
                  (sample_world keyed_env unknown_provider_args server_error (Ok tt))))
    = 1%Z.
Proof.
  apply (unknown_provider_raises
           (sample_world keyed_env unknown_provider_args server_error (Ok tt))
           (py "main:0.0\n") (unknown_provider_args (py "main:0.0"))
           [py "list"; py "files"]).
  - vm_compute. reflexivity.
  - vm_compute. reflexivity.
  - refine (bool_decide_unpack _ _). vm_compute. exact I.
Defined.

(** * Further properties: the answer of the provider *)

Lemma getitem_key_errors (v : json) (k : str) (e : exn) :
  getitem_key v k = Raise e -> e = KeyError ∨ e = TypeError.
Proof.
  destruct v; cbn; try (intros [= <-]; by right).
  destruct (assoc k items); [discriminate|]. intros [= <-]. by left.
Qed.

Lemma getitem_0_errors (v : json) (e : exn) :
  getitem_0 v = Raise e -> e = KeyError ∨ e = IndexError ∨ e = TypeError.
Proof.
  destruct v as [| | |s|l|d]; cbn; try (intros [= <-]; auto).
  - destruct s; [intros [= <-]; auto | discriminate].
  - destruct l; [intros [= <-]; auto | discriminate].
Qed.

(** The lookup [response_data['choices'][0]['message']['content']] can only
    fail with a [KeyError], an [IndexError] or a [TypeError]. *)
Lemma message_content_errors (data : json) (e : exn) :
  Shellai.message_content data = Raise e ->
  e = KeyError ∨ e = IndexError ∨ e = TypeError.
Proof.
  unfold Shellai.message_content. intros H.
  destruct (getitem_key data (py "choices")) as [choices|e1] eqn:E1.
  2:{ cbn in H. injection H as <-. apply getitem_key_errors in E1. tauto. }
  cbn [mbind result_bind] in H.
  destruct (getitem_0 choices) as [first|e2] eqn:E2.
  2:{ cbn in H. injection H as <-. apply getitem_0_errors in E2. tauto. }
  cbn [mbind result_bind] in H.
  destruct (getitem_key first (py "message")) as [message|e3] eqn:E3.
  2:{ cbn in H. injection H as <-. apply getitem_key_errors in E3. tauto. }
  cbn [mbind result_bind] in H. apply getitem_key_errors in H. tauto.
Qed.

Lemma fetch_default_200 (w : World) (g : Shellai.Globals) (prompt sp : str)
    (r : http_response) (data : json) :
  debug (Shellai.args g) = false ->
  Shellai.provider_wrapper (Shellai.provider g) = Shellai.get_response_default_w ->
  requests_post w (Shellai.url (Shellai.provider g)) (Shellai.api_key g)
                (model (Shellai.args g)) sp prompt = Ok r ->
  status_code r = 200%Z ->
  json_body r = Ok data ->
  match Shellai.message_content data with
  | Ok v =>
      Shellai.fetch_response w g prompt sp
      = (announce g ++ [request g prompt sp]
         ++ (if verbose (Shellai.args g)
             then [Print (py "raw response" ++ [10]); Print (Shellai.hrule ++ [10])]
                  ++ trace (print_value v) ++ [Print (Shellai.hrule ++ [10])]
             else []),
         Ok v)
  | Raise KeyError =>
      Shellai.fetch_response w g prompt sp
      = (announce g ++ [request g prompt sp; Print (py "unexpected output" ++ [10])]
         ++ trace (print_value data),
         Raise SystemExit)
  | Raise e =>
      Shellai.fetch_response w g prompt sp = (announce g ++ [request g prompt sp], Raise e)
  end.
Proof.
  intros Hdebug Hwrap Hpost Hstatus Hjson.
  destruct (Shellai.message_content data) as [v|e] eqn:Hc.
  - unfold Shellai.fetch_response, Shellai.call_wrapper,
      Shellai.get_response_default, announce, request.
    rewrite Hdebug, Hwrap, Hpost.
    destruct (verbose (Shellai.args g)); cbn [when mbind M_bind lift print emit];
      rewrite Hstatus, Hjson; cbn [mbind M_bind lift Z.eqb Pos.eqb];
      rewrite Hc; [destruct v|]; reflexivity.
  - destruct e;
      try (unfold Shellai.fetch_response, Shellai.call_wrapper,
             Shellai.get_response_default, announce, request;
           rewrite Hdebug, Hwrap, Hpost;
           destruct (verbose (Shellai.args g)); cbn [when mbind M_bind lift print emit];
           rewrite Hstatus, Hjson; cbn [mbind M_bind lift Z.eqb Pos.eqb];
           rewrite Hc; reflexivity).
    apply fetch_missing_key with (r := r); assumption.
Qed.

(** X12: what [get_response_default] makes of a 200 answer with a JSON
    body.  If [choices[0].message.content] exists it is returned, whatever
    it is.  If one of the three keys is missing, [unexpected output] and the
    body are printed and the script quits.  Every other failure of the
    lookup (an empty [choices] list, a value that cannot be indexed) is not
    caught: no diagnostic is printed and the exception ends the run. *)
Theorem default_answer_outcomes (w : World) (g : Shellai.Globals) (prompt sp : str)
    (r : http_response) (data : json) :
  debug (Shellai.args g) = false ->
  Shellai.provider_wrapper (Shellai.provider g) = Shellai.get_response_default_w ->
  requests_post w (Shellai.url (Shellai.provider g)) (Shellai.api_key g)
                (model (Shellai.args g)) sp prompt = Ok r ->
  status_code r = 200%Z ->
  json_body r = Ok data ->
  (∀ v, Shellai.message_content data = Ok v ->
        outcome (Shellai.fetch_response w g prompt sp) = Ok v)
  ∧ (Shellai.message_content data = Raise KeyError ->
     outcome (Shellai.fetch_response w g prompt sp) = Raise SystemExit
     ∧ Print (py "unexpected output" ++ [10])
       ∈ trace (Shellai.fetch_response w g prompt sp))
  ∧ (∀ e, Shellai.message_content data = Raise e -> e ≠ KeyError ->
          Shellai.main w g prompt sp = (announce g ++ [request g prompt sp], Raise e)
          ∧ exit_status (outcome (Shellai.main w g prompt sp)) = 1%Z).
Proof.
  intros Hdebug Hwrap Hpost Hstatus Hjson.
  pose proof (fetch_default_200 w g prompt sp r data Hdebug Hwrap Hpost Hstatus Hjson) as H.
  split; [|split].
  - intros v Hv. rewrite Hv in H. rewrite H. reflexivity.
  - intros Hk. rewrite Hk in H. rewrite H. split; [reflexivity|].
    unfold trace. cbn [fst]. rewrite !elem_of_app. right. left.
    rewrite !elem_of_cons. right. left. reflexivity.
  - intros e He Hne. rewrite He in H.
    assert (Hf : Shellai.fetch_response w g prompt sp
                 = (announce g ++ [request g prompt sp], Raise e))
      by (destruct e; try exact H; congruence).
    rewrite (main_fetch_raises w g prompt sp _ _ Hf).
    split; [reflexivity|].
    destruct (message_content_errors _ _ He) as [-> | [-> | ->]];
      [congruence | reflexivity | reflexivity].
Qed.

Lemma default_answer_outcomes_witness :
  Shellai.main (sample_world keyed_env sample_args empty_choices (Ok tt))
    (sample_globals (sample_args (py "main:0.0"))) (py "list files:\n$ ls") (py "system")
  = (announce (sample_globals (sample_args (py "main:0.0")))
     ++ [request (sample_globals (sample_args (py "main:0.0")))
           (py "list files:\n$ ls") (py "system")],
     Raise IndexError).
Proof.
  destruct (default_answer_outcomes
              (sample_world keyed_env sample_args empty_choices (Ok tt))
              (sample_globals (sample_args (py "main:0.0")))
              (py "list files:\n$ ls") (py "system")
              (sample_response 200 (py "{...}") (Ok (JDict [(py "choices", JList [])])))
              (JDict [(py "choices", JList [])])
              eq_refl eq_refl eq_refl eq_refl eq_refl) as (_ & _ & H).
  destruct (H IndexError) as [Hm _]; [vm_compute; reflexivity | discriminate |].
  exact Hm.
Defined.

(** X13: a 200 answer whose [content] is not a text (a [null], as sent with
    tool calls, a number, a list) is returned by [get_response_default] as
    it is; [extract_command] then fails on it with a [TypeError]: the run
    ends with status 1 and nothing is injected. *)
Theorem non_text_content_raises (w : World) (g : Shellai.Globals) (prompt sp : str)
    (r : http_response) (data v : json) :
  debug (Shellai.args g) = false ->
  Shellai.provider_wrapper (Shellai.provider g) = Shellai.get_response_default_w ->
  requests_post w (Shellai.url (Shellai.provider g)) (Shellai.api_key g)
                (model (Shellai.args g)) sp prompt = Ok r ->
  status_code r = 200%Z ->
  json_body r = Ok data ->
  Shellai.message_content data = Ok v ->
  as_str v = Raise TypeError ->
  log (Shellai.args g) = None ->
  outcome (Shellai.main w g prompt sp) = Raise TypeError
  ∧ exit_status (outcome (Shellai.main w g prompt sp)) = 1%Z
  ∧ Forall (fun e => is_send_keys e = false) (trace (Shellai.main w g prompt sp)).
Proof.
  intros Hdebug Hwrap Hpost Hstatus Hjson Hv Hstr Hlog.
  pose proof (fetch_default_200 w g prompt sp r data Hdebug Hwrap Hpost Hstatus Hjson) as H.
  rewrite Hv in H.
  pose proof (fetch_response_no_run w g prompt sp) as Hrun. rewrite H in Hrun.
  assert (Hm : Shellai.main w g prompt sp
               = (fst (Shellai.fetch_response w g prompt sp), Raise TypeError)).
  { unfold Shellai.main, Shellai.get_response. rewrite H, Hlog.
    cbn [mbind M_bind mret M_ret fst snd app].
    unfold Shellai.extract_command. rewrite Hstr.
    unfold trace, outcome, lift.
    cbn [mbind M_bind mret M_ret fst snd app]. rewrite ?app_nil_r. reflexivity. }
  rewrite Hm, H. unfold trace, outcome. cbn [fst snd].
  split; [reflexivity|]. split; [reflexivity|].
  apply no_run_no_send_keys. exact Hrun.
Qed.

Lemma non_text_content_raises_witness :
  outcome (Shellai.main (sample_world keyed_env sample_args null_content (Ok tt))
             (sample_globals (sample_args (py "main:0.0")))
             (py "list files:\n$ ls") (py "system"))
  = Raise TypeError.
Proof.
  apply (non_text_content_raises
           (sample_world keyed_env sample_args null_content (Ok tt))
           (sample_globals (sample_args (py "main:0.0")))
           (py "list files:\n$ ls") (py "system")
           (sample_response 200 (py "{...}")
              (Ok (JDict [(py "choices",
                           JList [JDict [(py "message",
                                          JDict [(py "content", JNull)])]])])))
           (JDict [(py "choices",
                    JList [JDict [(py "message", JDict [(py "content", JNull)])]])])
           JNull eq_refl eq_refl eq_refl eq_refl eq_refl
           ltac:(vm_compute; reflexivity) eq_refl eq_refl).
Defined.

(** * Further properties: the debug mode *)

(** X14: with [--debug] the script never calls a provider: whatever the
    environment answers, no HTTP request and no SDK call is made from the
    first line of the script to its end. *)
Theorem debug_never_calls_provider (w : World) (st : Shellai.Startup)
    (tr : list event) :
  Shellai.startup w = (tr, Ok st) ->
  debug (Shellai.st_args st) = true ->
  Forall (fun e => is_network e = false) (trace (Shellai.script w)).
Proof.
  intros Hst Hdebug. unfold Shellai.script. rewrite (bind_Ok _ _ _ _ Hst).
  unfold trace at 1. cbn [fst]. apply Forall_app. split.
  - apply local_only_no_network. pose proof (startup_local w) as Hl.
    rewrite Hst in Hl. exact Hl.
  - unfold Shellai.run_from, Shellai.get_key.
    apply Forall_trace_bind; [walk; reflexivity|]. intros key.
    apply Forall_trace_bind; [walk|]. intros prefix.
    destruct (prefix ++ Shellai.st_input_string st); [walk; reflexivity|].
    unfold Shellai.main, Shellai.get_response, Shellai.fetch_response,
      Shellai.get_response_debug, Shellai.extract_command, Shellai.put_command, sleep.
    cbn [Shellai.args]. rewrite Hdebug.
    walk; reflexivity.
Qed.

Lemma debug_never_calls_provider_witness :
  Forall (fun e => is_network e = false)
    (trace (Shellai.script (sample_world keyed_env auto_args server_error (Ok tt)))).
Proof.
  pose proof (debug_never_calls_provider
                (sample_world keyed_env auto_args server_error (Ok tt))) as H.
  destruct (Shellai.startup (sample_world keyed_env auto_args server_error (Ok tt)))
    as [tr [st|e]] eqn:E; vm_compute in E; [|discriminate].
  injection E as <- <-.
  apply (H _ _ eq_refl). reflexivity.
Defined.

Lemma string_of_uint_digits (d : Decimal.uint) :
  96 ∉ map N_of_ascii (list_ascii_of_string (NilEmpty.string_of_uint d)).
Proof.
  induction d; cbn [NilEmpty.string_of_uint list_ascii_of_string map];
    [apply not_elem_of_nil | ..];
    (apply not_elem_of_cons; split; [discriminate | assumption]).
Qed.

Lemma str_of_Z_no_backtick (z : Z) : 96 ∉ str_of_Z z.
Proof.
  unfold str_of_Z. destruct (Z.to_int z) as [d|d]; cbn [NilEmpty.string_of_int].
  - apply string_of_uint_digits.
  - cbn [list_ascii_of_string map]. apply not_elem_of_cons.
    split; [discriminate | apply string_of_uint_digits].
Qed.

Lemma ljust_no_backtick (n : nat) (s : str) : 96 ∉ s -> 96 ∉ ljust n s.
Proof.
  intros H. unfold ljust. rewrite elem_of_app. intros [Hs | Hr]; [exact (H Hs)|].
  apply list_elem_of_In, repeat_spec in Hr. discriminate.
Qed.

(** Every character of a line is a character of the text. *)
Lemma splitlines_from_elem (n : nat) (s cur l : str) (x : N) :
  (length s <= n)%nat ->
  l ∈ splitlines_from cur s -> x ∈ l -> x ∈ cur ∨ x ∈ s.
Proof.
  revert s cur. induction n as [|n IH]; intros s cur Hn Hl Hx.
  - destruct s; [|cbn in Hn; lia]. cbn in Hl. destruct cur as [|c cur].
    + by apply elem_of_nil in Hl.
    + apply list_elem_of_singleton in Hl as ->. left.
      apply list_elem_of_In, in_rev, list_elem_of_In in Hx. exact Hx.
  - destruct s as [|a s].
    { apply (IH [] cur); [cbn; lia | assumption | assumption]. }
    cbn [splitlines_from] in Hl. cbn [length] in Hn.
    assert (Hclose : ∀ t, (length t <= n)%nat -> (∀ y, y ∈ t -> y ∈ s) ->
              l ∈ rev cur :: splitlines_from [] t -> x ∈ cur ∨ x ∈ a :: s).
    { intros t Ht Hsub Hin. apply elem_of_cons in Hin as [-> | Hin].
      - left. apply list_elem_of_In, in_rev, list_elem_of_In in Hx. exact Hx.
      - destruct (IH t [] Ht Hin Hx) as [H | H]; [by apply elem_of_nil in H|].
        right. right. apply Hsub, H. }
    destruct (is_linebreak a).
    + destruct (a =? 13).
      * destruct s as [|d s'].
        -- apply (Hclose []); [cbn; lia | auto | exact Hl].
        -- destruct (d =? 10).
           ++ apply (Hclose s'); [cbn in Hn; lia | intros y Hy; by right | exact Hl].
           ++ apply (Hclose (d :: s')); [lia | auto | exact Hl].
      * apply (Hclose s); [lia | auto | exact Hl].
    + destruct (IH s (a :: cur) ltac:(lia) Hl Hx) as [H | H].
      * apply elem_of_cons in H as [-> | H]; [right; left | left; exact H].
      * right. right. exact H.
Qed.

Lemma removelast_elem_of {A} (l : list A) (x : A) : x ∈ removelast l -> x ∈ l.
Proof.
  induction l as [|a l IH]; [done|]. cbn [removelast].
  destruct l as [|b l]; [intros H; by apply elem_of_nil in H|].
  intros H. apply elem_of_cons in H as [-> | H]; [left | right; apply IH, H].
Qed.

Lemma rstrip_snoc (s : str) (c : N) : isspace c = false -> rstrip (s ++ [c]) = s ++ [c].
Proof.
  intros H. unfold rstrip. rewrite rev_app_distr. cbn [rev app lstrip].
  rewrite H. cbn [rev]. rewrite rev_involutive. reflexivity.
Qed.

(** A text without line boundary, then a line feed, is one line. *)
Lemma splitlines_from_plain (s cur : str) :
  Forall (fun x => is_linebreak x = false) s ->
  splitlines_from cur (s ++ [10]) = [rev cur ++ s].
Proof.
  intros H. revert cur. induction H as [|a s Ha _ IH]; intros cur.
  - cbn. rewrite app_nil_r. reflexivity.
  - cbn [app splitlines_from]. rewrite Ha, IH. cbn [rev].
    rewrite <- app_assoc. reflexivity.
Qed.

(** X15: when the prompt has at least two lines, and neither the prompt
    nor the prefix holds a backtick and the prefix holds no line feed,
    extraction from the debug response gives exactly the test command
    [echo "$(prefix)"]: the debug mode exercises extraction end to end. *)
Theorem debug_response_command (g : Shellai.Globals) (prompt sp : str) :
  96 ∉ prompt ->
  96 ∉ Shellai.prefix_input g ->
  10 ∉ Shellai.prefix_input g ->
  (2 <= length (splitlines prompt))%nat ->
  ∃ response,
    outcome (Shellai.get_response_debug g prompt sp) = Ok response
    ∧ Shellai.extract_command_value response
      = Ok (py "echo \x22$(" ++ Shellai.prefix_input g ++ py ")\x22").
Proof.
  intros Hprompt Hprefix Hnl Hlines.
  destruct (removelast (splitlines prompt)) as [|first rest] eqn:Efirst.
  { destruct (splitlines prompt) as [|l1 [|l2 ls]]; cbn in Hlines; try lia.
    discriminate. }
  assert (Hfirst : 96 ∉ first).
  { intros Hin. assert (Hl : first ∈ splitlines prompt).
    { apply removelast_elem_of. rewrite Efirst. left. }
    destruct (splitlines_from_elem (length prompt) prompt [] first 96 (le_n _) Hl Hin)
      as [H | H]; [by apply elem_of_nil in H | exact (Hprompt H)]. }
  eexists. split.
  - unfold Shellai.get_response_debug. rewrite Efirst.
    destruct (verbose (Shellai.args g)); reflexivity.
  - set (line := py " echo \x22$(" ++ Shellai.prefix_input g ++ py ")\x22").
    set (prose := ljust Shellai.VERBOSE_LEN (py "sys prompt len:")
                  ++ str_of_Z (Z.of_nat (length sp))
                  ++ (ljust Shellai.VERBOSE_LEN (py "prompt len:")
                      ++ str_of_Z (Z.of_nat (length prompt)) ++ [10])
                  ++ ljust Shellai.VERBOSE_LEN (py "prefix_input:") ++ first ++ [10]
                  ++ py "test code block:\n").
    match goal with
    | |- Shellai.extract_command_value ?r = _ =>
        replace r
          with (prose ++ fence ++ tag_text Bash ++ [10] ++ line ++ [10] ++ (fence ++ [10]))
          by (unfold prose, line; rewrite <- !app_assoc; reflexivity)
    end.
    assert (Hprose : 96 ∉ prose).
    { unfold prose. rewrite !elem_of_app.
      intros [H | [H | [[H | [H | H]] | [H | [H | [H | H]]]]]].
      - revert H. apply ljust_no_backtick. computed.
      - revert H. apply str_of_Z_no_backtick.
      - revert H. apply ljust_no_backtick. computed.
      - revert H. apply str_of_Z_no_backtick.
      - apply list_elem_of_singleton in H. discriminate.
      - revert H. apply ljust_no_backtick. computed.
      - exact (Hfirst H).
      - apply list_elem_of_singleton in H. discriminate.
      - revert H. computed. }
    assert (Hline : 10 ∉ line).
    { unfold line. rewrite !elem_of_app. intros [H | [H | H]].
      - revert H. computed.
      - exact (Hnl H).
      - revert H. computed. }
    unfold Shellai.extract_command_value.
    rewrite shellai_findall_single;
      [| exact Hprose | by unfold line | exact Hline | right; right; reflexivity].
    change (index_last [line]) with (Ok line). cbn [mbind result_bind].
    assert (Hstrip : strip line = py "echo \x22$(" ++ Shellai.prefix_input g ++ py ")\x22").
    { unfold strip, line.
      change (lstrip (py " echo \x22$(" ++ Shellai.prefix_input g ++ py ")\x22"))
        with (py "echo \x22$(" ++ Shellai.prefix_input g ++ py ")\x22").
      change (py ")\x22") with ([41] ++ [34]). rewrite !app_assoc.
      apply rstrip_snoc. reflexivity. }
    rewrite Hstrip. rewrite split_on_plain; [reflexivity|].
    rewrite <- Hstrip. intros H. apply Hline, strip_elem_of, H.
Qed.

Lemma debug_response_command_witness :
  ∃ response,
    outcome (Shellai.get_response_debug (sample_globals (auto_args (py "main:0.0")))
               (py "list files:\n$ ls") (py "system")) = Ok response
    ∧ Shellai.extract_command_value response
      = Ok (py "echo \x22$("
            ++ Shellai.prefix_input (sample_globals (auto_args (py "main:0.0")))
            ++ py ")\x22").
Proof.
  apply (debug_response_command (sample_globals (auto_args (py "main:0.0")))
           (py "list files:\n$ ls") (py "system")).
  - computed.
  - computed.
  - computed.
  - vm_compute. lia.
Defined.

(** X16: the debug response quotes the first line of the prompt through
    [prompt.splitlines()[0:-1][0]].  A prompt of one line, as the script
    builds it from words without line boundary and an empty input text,
    makes that index fail: [get_response_debug] raises [IndexError]. *)
Theorem debug_one_line_prompt_raises (g : Shellai.Globals) (prefix sp : str) :
  Forall (fun x => is_linebreak x = false) prefix ->
  outcome (Shellai.get_response_debug g (prefix ++ py ":\n") sp) = Raise IndexError.
Proof.
  intros Hprefix.
  assert (Hlines : splitlines (prefix ++ py ":\n") = [prefix ++ [58]]).
  { unfold splitlines. change (py ":\n") with ([58] ++ [10]). rewrite app_assoc.
    rewrite splitlines_from_plain; [reflexivity|].
    apply Forall_app. split; [exact Hprefix|]. repeat constructor. }
  unfold Shellai.get_response_debug. rewrite Hlines.
  destruct (verbose (Shellai.args g)); reflexivity.
Qed.

Lemma debug_one_line_prompt_raises_witness :
  outcome (Shellai.get_response_debug (sample_globals (auto_args (py "main:0.0")))
             (py "list files" ++ py ":\n") (py "system"))
  = Raise IndexError.
Proof.
  apply (debug_one_line_prompt_raises (sample_globals (auto_args (py "main:0.0")))
           (py "list files") (py "system")).
  apply Forall_forall. intros x Hx.
  destruct (is_linebreak x) eqn:E; [|reflexivity]. exfalso. revert Hx.
  unfold is_linebreak in E.
  rewrite !orb_true_iff, !andb_true_iff, !N.leb_le, !N.eqb_eq in E.
  intros Hx. apply list_elem_of_In in Hx. vm_compute in Hx.
  repeat (destruct Hx as [<- | Hx]; [lia|]). destruct Hx.
Defined.

(** * Further properties: what is shown and what runs first *)






(** X18: when the module of the vendor is not installed, the Gemini and
    Anthropic strategies print the [pip install] hint and quit: [main]
    ends there, with exit status 0, without any network call or
    injection. *)
Theorem sdk_missing_quits (w : World) (g : Shellai.Globals) (prompt sp : str) :
  debug (Shellai.args g) = false ->
  (Shellai.provider_wrapper (Shellai.provider g) = Shellai.get_response_gemini_w ->
   gemini_installed w = false ->
   Shellai.main w g prompt sp
   = (announce g ++ [Print (py "run pip install google-generativeai" ++ [10])],
      Raise SystemExit))
  ∧ (Shellai.provider_wrapper (Shellai.provider g) = Shellai.get_response_anthropic_w ->
     anthropic_installed w = false ->
     Shellai.main w g prompt sp
     = (announce g ++ [Print (py "run pip install anthropic" ++ [10])],
        Raise SystemExit)).
Proof.
  intros Hdebug. split; intros Hwrap Hinst; apply main_fetch_raises;
    unfold Shellai.fetch_response, Shellai.call_wrapper,
      Shellai.get_response_gemini, Shellai.get_response_anthropic, announce;
    rewrite Hdebug, Hwrap, Hinst;
    destruct (verbose (Shellai.args g)); reflexivity.
Qed.

Lemma sdk_missing_quits_witness :
  Shellai.main (piped_world gemini_env gemini_args [py "list"; py "files"] (py "$ ls\n") false)
    (gemini_globals (gemini_args (py "main:0.0"))) (py "list files:\n$ ls\n") (py "system")
  = (announce (gemini_globals (gemini_args (py "main:0.0")))
     ++ [Print (py "run pip install google-generativeai" ++ [10])],
     Raise SystemExit).
Proof.
  apply (proj1 (sdk_missing_quits
                  (piped_world gemini_env gemini_args [py "list"; py "files"]
                     (py "$ ls\n") false)
                  (gemini_globals (gemini_args (py "main:0.0")))
                  (py "list files:\n$ ls\n") (py "system") eq_refl));
    reflexivity.
Defined.

(** X19: whatever the environment answers, the only events of the script
    before it has the credential are prints, the request to tmux for the
    name of the pane and a capture of the pane: no network call, no
    injection, no sleep, no write to a file.  (Reading the system prompt
    and [/etc/os-release] are answers of the environment, not events.) *)
Theorem script_start_reads_pane_only (w : World) :
  Forall reads_pane_only
    (trace (st ← Shellai.startup w; Shellai.get_key w (Shellai.st_provider st))).
Proof.
  apply Forall_trace_bind.
  - unfold Shellai.startup, Shellai.run_check_output.
    apply Forall_trace_bind; [walk; left; reflexivity|]. intros pane.
    destruct (parse_known_args w (strip pane)) as [a arg_input].
    apply Forall_trace_bind; [walk|]. intros p.
    apply Forall_trace_bind; [walk; exact I|]. intros sp.
    apply Forall_trace_bind.
    { unfold Shellai.select_input, Shellai.run_check_output.
      walk. right. reflexivity. }
    intros input. walk; exact I.
  - intros st. unfold Shellai.get_key, quit. walk. exact I.
Qed.

(** *** What [--verbose] changes *)

Lemma effects_app (t t' : list event) :
  effects (t ++ t') = effects t ++ effects t'.
Proof. apply List.filter_app. Qed.

Lemma same_but_prints_refl {A} (m : M A) : same_but_prints m m.
Proof. split; reflexivity. Qed.

Lemma same_but_prints_bind {A B} (m m' : M A) (k k' : A -> M B) :
  same_but_prints m m' ->
  (forall a, same_but_prints (k a) (k' a)) ->
  same_but_prints (m ≫= k) (m' ≫= k').
Proof.
  destruct m as [t [a|e]], m' as [t' [a'|e']]; unfold same_but_prints;
    cbn [outcome trace fst snd mbind M_bind]; intros [Ho Ht] Hk;
    try discriminate Ho; injection Ho as ->.
  - destruct (Hk a') as [Ho' Ht']. destruct (k a'), (k' a').
    cbn [outcome trace fst snd] in *.
    by rewrite !effects_app, Ht, Ht', Ho'.
  - done.
Qed.

Lemma same_but_prints_when (b b' : bool) (m : M unit) :
  outcome m = Ok tt -> effects (trace m) = [] ->
  same_but_prints (when b m) (when b' m).
Proof.
  intros Ho Ht. destruct m as [t r]. cbn [outcome trace fst snd] in *. subst r.
  destruct b, b'; split; cbn [when outcome trace fst snd mret M_ret]; done.
Qed.

Lemma print_value_quiet (v : json) :
  outcome (print_value v) = Ok tt ∧ effects (trace (print_value v)) = [].
Proof. destruct v; split; reflexivity. Qed.

Lemma get_response_debug_verbose (g : Shellai.Globals) (b : bool) (prompt sp : str) :
  same_but_prints (Shellai.get_response_debug (with_verbose g b) prompt sp)
                  (Shellai.get_response_debug g prompt sp).
Proof.
  unfold Shellai.get_response_debug. apply same_but_prints_bind.
  - apply same_but_prints_when; reflexivity.
  - intros _. apply same_but_prints_refl.
Qed.

Lemma fetch_response_verbose (w : World) (g : Shellai.Globals) (b : bool)
    (prompt sp : str) :
  same_but_prints (Shellai.fetch_response w (with_verbose g b) prompt sp)
                  (Shellai.fetch_response w g prompt sp).
Proof.
  unfold Shellai.fetch_response. apply same_but_prints_bind.
  { apply same_but_prints_when; reflexivity. }
  intros _. apply same_but_prints_bind.
  { change (debug (Shellai.args (with_verbose g b))) with (debug (Shellai.args g)).
    destruct (debug (Shellai.args g)).
    - apply same_but_prints_bind; [apply get_response_debug_verbose|].
      intros r. apply same_but_prints_refl.
    - apply same_but_prints_refl. }
  intros response. apply same_but_prints_bind; [|intros _; apply same_but_prints_refl].
  destruct (print_value_quiet response) as [Ho Ht].
  apply same_but_prints_when.
  - destruct (print_value response) as [t r]. cbn [outcome snd] in Ho. subst r.
    reflexivity.
  - destruct (print_value response) as [t r].
    cbn [outcome trace fst snd] in *. subst r.
    cbn [trace fst mbind M_bind print emit]. rewrite !effects_app, Ht. reflexivity.
Qed.

Lemma extract_command_verbose (g : Shellai.Globals) (b : bool) (response : json) :
  same_but_prints (Shellai.extract_command (with_verbose g b) response)
                  (Shellai.extract_command g response).
Proof.
  unfold Shellai.extract_command. apply same_but_prints_bind.
  { apply same_but_prints_refl. }
  intros text. apply same_but_prints_bind.
  - apply same_but_prints_when; reflexivity.
  - intros _. apply same_but_prints_refl.
Qed.

Lemma covered_refl {A} (m : M A) : covered m m.
Proof. split; [reflexivity|]. intros e He. exact He. Qed.

Lemma covered_bind {A B} (m m' : M A) (k k' : A -> M B) :
  covered m m' ->
  (forall a, covered (k a) (k' a)) ->
  covered (m ≫= k) (m' ≫= k').
Proof.
  destruct m as [t [a|e]], m' as [t' [a'|e']]; unfold covered;
    cbn [outcome trace fst snd mbind M_bind]; intros [Ho Ht] Hk;
    try discriminate Ho; injection Ho as ->.
  - destruct (Hk a') as [Ho' Ht']. destruct (k a'), (k' a').
    cbn [outcome trace fst snd] in *. split; [exact Ho'|].
    intros e. rewrite !elem_of_app. intros [He|He]; [left; apply Ht | right; apply Ht'];
      exact He.
  - done.
Qed.

Lemma covered_when (b : bool) (m : M unit) :
  outcome m = Ok tt -> covered (when b m) (when true m).
Proof.
  intros Ho. destruct b; [apply covered_refl|].
  split; [symmetry; exact Ho|]. intros e He. by apply elem_of_nil in He.
Qed.

Lemma main_verbose_covered (w : World) (g : Shellai.Globals) (b : bool)
    (prompt sp : str) :
  covered (Shellai.main w (with_verbose g b) prompt sp)
          (Shellai.main w (with_verbose g true) prompt sp).
Proof.
  unfold Shellai.main. apply covered_bind.
  { unfold Shellai.get_response. apply covered_bind; [|intros r; apply covered_refl].
    unfold Shellai.fetch_response. apply covered_bind.
    { apply covered_when. reflexivity. }
    intros _. apply covered_bind.
    { change (debug (Shellai.args (with_verbose g b))) with (debug (Shellai.args g)).
      change (debug (Shellai.args (with_verbose g true))) with (debug (Shellai.args g)).
      destruct (debug (Shellai.args g)); [|apply covered_refl].
      apply covered_bind; [|intros r; apply covered_refl].
      unfold Shellai.get_response_debug. apply covered_bind.
      - apply covered_when. reflexivity.
      - intros _. apply covered_refl. }
    intros response. apply covered_bind; [|intros _; apply covered_refl].
    apply covered_when.
    destruct (print_value_quiet response) as [Ho _].
    destruct (print_value response) as [t r]. cbn [outcome snd] in Ho. subst r.
    reflexivity. }
  intros response. apply covered_bind; [|intros command; apply covered_refl].
  unfold Shellai.extract_command. apply covered_bind; [apply covered_refl|].
  intros text. apply covered_bind; [|intros _; apply covered_refl].
  apply covered_when. reflexivity.
Qed.

Lemma with_verbose_same (g : Shellai.Globals) :
  with_verbose g (verbose (Shellai.args g)) = g.
Proof. destruct g as [[] ? ? ? ?]. reflexivity. Qed.

Lemma forallb_subseteq {A} (f : A -> bool) (l l' : list A) :
  l ⊆ l' -> forallb f l' = true -> forallb f l = true.
Proof.
  intros Hsub Hall. apply forallb_forall. intros x Hx.
  apply (proj1 (forallb_forall f l') Hall).
  apply list_elem_of_In, Hsub, list_elem_of_In, Hx.
Qed.

(** X20: when every text the verbose run prints can be encoded for a UTF-8
    standard output (no surrogate code point), [--verbose] changes what is
    printed and nothing else: with the option set either way, [main] ends
    the same way (the same return or the same exception) and performs the
    same network calls, tmux commands, sleeps and file writes, in the same
    order; and every text either run prints is one the verbose run prints,
    so it can be encoded as well. *)
Theorem verbose_only_prints (w : World) (g : Shellai.Globals) (b : bool)
    (prompt sp : str) :
  forallb prints_encodable (trace (Shellai.main w (with_verbose g true) prompt sp)) = true ->
  (outcome (Shellai.main w (with_verbose g b) prompt sp)
   = outcome (Shellai.main w g prompt sp)
   ∧ effects (trace (Shellai.main w (with_verbose g b) prompt sp))
     = effects (trace (Shellai.main w g prompt sp)))
  ∧ forallb prints_encodable (trace (Shellai.main w (with_verbose g b) prompt sp)) = true
  ∧ forallb prints_encodable (trace (Shellai.main w g prompt sp)) = true.
Proof.
  intros Henc. split; [|split].
  - change (same_but_prints (Shellai.main w (with_verbose g b) prompt sp)
                            (Shellai.main w g prompt sp)).
    unfold Shellai.main. apply same_but_prints_bind.
    { unfold Shellai.get_response. apply same_but_prints_bind.
      - apply fetch_response_verbose.
      - intros response. apply same_but_prints_refl. }
    intros response. apply same_but_prints_bind.
    { apply extract_command_verbose. }
    intros command. apply same_but_prints_refl.
  - exact (forallb_subseteq _ _ _ (proj2 (main_verbose_covered w g b prompt sp)) Henc).
  - pose proof (main_verbose_covered w g (verbose (Shellai.args g)) prompt sp) as [_ Hsub].
    rewrite with_verbose_same in Hsub.
    exact (forallb_subseteq _ _ _ Hsub Henc).
Qed.

Lemma verbose_only_prints_witness :
  outcome (Shellai.main (sample_world keyed_env auto_args server_error (Ok tt))
             (with_verbose (sample_globals (auto_args (py "main:0.0"))) true)
             (py "list files:\n$ ls\n$ pwd") (py "system"))
  = outcome (Shellai.main (sample_world keyed_env auto_args server_error (Ok tt))
               (sample_globals (auto_args (py "main:0.0")))
               (py "list files:\n$ ls\n$ pwd") (py "system"))
  ∧ effects (trace (Shellai.main (sample_world keyed_env auto_args server_error (Ok tt))
                      (with_verbose (sample_globals (auto_args (py "main:0.0"))) true)
                      (py "list files:\n$ ls\n$ pwd") (py "system")))
    = effects (trace (Shellai.main (sample_world keyed_env auto_args server_error (Ok tt))
                        (sample_globals (auto_args (py "main:0.0")))
                        (py "list files:\n$ ls\n$ pwd") (py "system"))).
Proof.
  assert (Henc : forallb prints_encodable
                   (trace (Shellai.main
                             (sample_world keyed_env auto_args server_error (Ok tt))
                             (with_verbose (sample_globals (auto_args (py "main:0.0"))) true)
                             (py "list files:\n$ ls\n$ pwd") (py "system"))) = true)
    by (vm_compute; reflexivity).
  exact (proj1 (verbose_only_prints
                  (sample_world keyed_env auto_args server_error (Ok tt))
                  (sample_globals (auto_args (py "main:0.0"))) true
                  (py "list files:\n$ ls\n$ pwd") (py "system") Henc)).
Defined.
